(** * RPiPlay: the ALSA audio renderer (renderers/audio_renderer_alsa.c)

    A shallow embedding of the AAC/ALSA audio renderer.  The C functions of
    the file are translated to computations in a state-and-fault monad over
    a [World]: the memory of the process (heap blocks, library objects and
    address-taken locals), the file-static flag [mHasCtrlVolume], the
    mixer state of the sound card, and the chronological trace of the
    library calls and log lines the code has issued.

    fdk-aac, ALSA, the C allocator and the logger are not part of the file.
    They are modelled as an environment [Env] that answers every library
    call with a return code which may depend on the whole history.  The
    code under [#ifdef DUMP_AUDIO] is not compiled in and is left out. *)

From Stdlib Require Import ZArith List String Bool Lia.
From Stdlib Require Import Floats.SpecFloat.
From stdpp Require Import base option list gmap strings.

Local Open Scope string_scope.
Local Open Scope list_scope.
Local Open Scope Z_scope.

(** ** C values *)

Definition loc := positive.

(** A pointer is [None] (NULL) or the address of a block. *)
Definition ptr := option loc.

(** [float] is IEEE-754 binary32; the values of the type are the
    [spec_float]s that satisfy [valid_binary 24 128]. *)
Definition float := spec_float.

Definition float_valid (v : float) : bool := valid_binary 24 128 v.

(** [int] and [UINT] are 32 bits wide. *)
Definition int_of_long (z : Z) : Z := (z + 2 ^ 31) mod 2 ^ 32 - 2 ^ 31.

Definition UINT_of_int (z : Z) : Z := z mod 2 ^ 32.

(** ** Types of the header files *)

(** Modelled from the spec: logger.h is not among the sources; the
    diagnostic sink takes a severity and a formatted message, and these
    are the severities the file uses. *)
Inductive logger_level := LOGGER_ERR | LOGGER_INFO | LOGGER_DEBUG.

(** Modelled from the spec: audio_renderer.h and video_renderer.h are not
    among the sources.  The renderer types are tags, of which the file
    names [AUDIO_RENDERER_RPI] and [VIDEO_RENDERER_RPI]; the function
    table holds the five entry points; the configuration carries an
    optional device-name override; the base structure has the three
    fields the file assigns. *)
Inductive audio_renderer_type_t :=
  AUDIO_RENDERER_DUMMY | AUDIO_RENDERER_RPI | AUDIO_RENDERER_GSTREAMER.

Inductive video_renderer_type_t :=
  VIDEO_RENDERER_DUMMY | VIDEO_RENDERER_RPI | VIDEO_RENDERER_GSTREAMER.

Inductive audio_renderer_funcs_t := audio_renderer_alsa_funcs.

Record video_renderer_t := { video_type : video_renderer_type_t }.

Record audio_renderer_config_t := { alsaString : option string }.

Record audio_renderer_t := {
  logger : ptr;
  funcs : option audio_renderer_funcs_t;
  type : audio_renderer_type_t
}.

Record audio_renderer_alsa_t := {
  base : audio_renderer_t;
  config : option audio_renderer_config_t;
  audio_decoder : ptr;
  audio_renderer : ptr;
  ctl : ptr;
  ctl_elem_id : ptr
}.

(** What [calloc] hands back: every field zero. *)
Definition zero_renderer : audio_renderer_alsa_t :=
  {| base := {| logger := None; funcs := None; type := AUDIO_RENDERER_DUMMY |};
     config := None; audio_decoder := None; audio_renderer := None;
     ctl := None; ctl_elem_id := None |}.

(** ** Types of fdk-aac and ALSA *)

Inductive TRANSPORT_TYPE := TT_MP4_RAW.

Definition AAC_DEC_OK : Z := 0.

Record CStreamInfo := {
  channelConfig : Z;
  aacSampleRate : Z;
  aacSamplesPerFrame : Z;
  aot : Z;
  bitRate : Z
}.

Inductive snd_pcm_stream_t := SND_PCM_STREAM_PLAYBACK.

Inductive snd_pcm_format_t :=
  SND_PCM_FORMAT_S8 | SND_PCM_FORMAT_U8 | SND_PCM_FORMAT_S16_LE.

Inductive snd_pcm_access_t := SND_PCM_ACCESS_RW_INTERLEAVED.

Definition format_width (f : snd_pcm_format_t) : Z :=
  match f with
  | SND_PCM_FORMAT_S8 | SND_PCM_FORMAT_U8 => 8
  | SND_PCM_FORMAT_S16_LE => 16
  end.

(** The parameters [snd_pcm_set_params] installs on a stream. *)
Record pcm_setup := {
  pcm_format : snd_pcm_format_t;
  pcm_access : snd_pcm_access_t;
  pcm_channels : Z;
  pcm_rate : Z;
  pcm_soft_resample : Z;
  pcm_latency : Z
}.

Definition frame_bits (s : pcm_setup) : Z := format_width (pcm_format s) * pcm_channels s.

Inductive snd_ctl_elem_iface_t := SND_CTL_ELEM_IFACE_CARD | SND_CTL_ELEM_IFACE_MIXER.

Record snd_ctl_elem_id_t := { iface : snd_ctl_elem_iface_t; numid : Z }.

Definition zero_elem_id : snd_ctl_elem_id_t :=
  {| iface := SND_CTL_ELEM_IFACE_CARD; numid := 0 |}.

(** A control element value: the element it addresses and its array of
    integer positions (position 0 is the left channel, 1 the right). *)
Record snd_ctl_elem_value_t := { value_id : snd_ctl_elem_id_t; integer : list Z }.

Definition zero_elem_value : snd_ctl_elem_value_t :=
  {| value_id := zero_elem_id; integer := replicate 128 0 |}.

(** One control element of the card, as an element listing reports it. *)
Record ctl_elem := { elem_numid : Z; elem_name : string }.

Record snd_ctl_elem_list_t := {
  list_space : nat;
  list_used : list ctl_elem;
  list_count : nat
}.

Definition zero_elem_list : snd_ctl_elem_list_t :=
  {| list_space := 0; list_used := []; list_count := 0 |}.

(** ** Memory *)

Inductive block :=
| BRenderer (r : audio_renderer_alsa_t)
| BBytes (size : Z)
| BDecoder (configured : bool)
| BPcm (setup : option pcm_setup)
| BCtl (device : string)
| BElemId (id : snd_ctl_elem_id_t)
| BLong (z : Z)
| BElemValue (v : snd_ctl_elem_value_t)
| BElemList (l : snd_ctl_elem_list_t).

(** ** Library calls and the trace *)

Inductive call :=
| Calloc
| Malloc (size : Z)
| AacDecoder_Open (transport : TRANSPORT_TYPE) (nrOfLayers : Z)
| AacDecoder_ConfigRaw (self : ptr) (conf : list (list Z)) (length : Z)
| AacDecoder_GetStreamInfo (self : ptr)
| AacDecoder_Fill (self : ptr) (data : list Z) (bufferSize bytesValid : Z)
| AacDecoder_DecodeFrame (self : ptr) (pTimeData : ptr) (timeDataSize flags : Z)
| AacDecoder_Close (self : ptr)
| Snd_pcm_open (name : string) (stream : snd_pcm_stream_t) (mode : Z)
| Snd_pcm_set_params (pcm : ptr) (s : pcm_setup)
| Snd_pcm_bytes_to_frames (pcm : ptr) (bytes : Z)
| Snd_pcm_writei (pcm : ptr) (buffer : ptr) (size : Z)
| Snd_pcm_recover (pcm : ptr) (err silent : Z)
| Snd_pcm_drain (pcm : ptr)
| Snd_pcm_close (pcm : ptr)
| Snd_ctl_open (name : string) (mode : Z)
| Snd_ctl_close (ctl : ptr)
| Snd_ctl_elem_id_malloc
| Snd_ctl_elem_list (ctl : ptr) (space : nat)
| Snd_ctl_elem_list_alloc_space (entries : nat)
| Snd_ctl_convert_from_dB (ctl : ptr) (id : option snd_ctl_elem_id_t) (db_gain xdir : Z)
| Snd_ctl_elem_write (ctl : ptr) (data : option snd_ctl_elem_value_t).

Inductive log_arg :=
| AStr (s : string)
| AInt (z : Z)
| AStrerror (err : Z).

Inductive event :=
| Lib (c : call) (r : Z)
| Log (lg : ptr) (lvl : logger_level) (fmt : log_arg) (args : list log_arg).

(** ** The environment

    [reply] is the return code of a library call issued after the given
    history (for a call that returns a pointer, 0 stands for NULL).  The
    other fields are what the libraries write through out-parameters. *)
Record Env := {
  LONG_BITS : Z;
  reply : list event -> call -> Z;
  stream_info : list event -> CStreamInfo;
  ctl_elems : list event -> list ctl_elem;
  dB_to_raw : list event -> option snd_ctl_elem_id_t -> Z -> Z;
  indeterminate : list event -> Z
}.

(** ** The world *)

Record World := mkWorld {
  mem : gmap loc block;
  mHasCtrlVolume : bool;
  mixer : gmap Z (list Z);
  trace : list event
}.

Definition set_mem (m : gmap loc block) (w : World) : World :=
  {| mem := m; mHasCtrlVolume := mHasCtrlVolume w; mixer := mixer w; trace := trace w |}.

Definition set_mHasCtrlVolume (b : bool) (w : World) : World :=
  {| mem := mem w; mHasCtrlVolume := b; mixer := mixer w; trace := trace w |}.

Definition set_mixer (x : gmap Z (list Z)) (w : World) : World :=
  {| mem := mem w; mHasCtrlVolume := mHasCtrlVolume w; mixer := x; trace := trace w |}.

Definition record (e : event) (w : World) : World :=
  {| mem := mem w; mHasCtrlVolume := mHasCtrlVolume w; mixer := mixer w;
     trace := trace w ++ [e] |}.

(** ** The monad: state, and [Fault] for undefined behaviour of the C code *)

Inductive result (A : Type) :=
| Ok (a : A) (w : World)
| Fault.

Arguments Ok {A} a w.
Arguments Fault {A}.

Definition M (A : Type) : Type := World -> result A.

Definition ret {A} (a : A) : M A := fun w => Ok a w.

Definition bind {A B} (m : M A) (k : A -> M B) : M B :=
  fun w => match m w with Ok a w' => k a w' | Fault => Fault end.

Definition fault {A} : M A := fun _ => Fault.

Declare Scope c_scope.
Delimit Scope c_scope with c.
Notation "'let*' x ':=' m 'in' k" := (bind m (fun x => k))
  (at level 10, x name, m at level 100, k at level 200) : c_scope.
Notation "m ';;' k" := (bind m (fun _ => k))
  (at level 100, k at level 200, right associativity) : c_scope.
Local Open Scope c_scope.

(** An lvalue of the C code, as the assignment it allows. *)
Definition lvalue (A : Type) : Type := A -> M unit.

Definition when (b : bool) (m : M unit) : M unit := if b then m else ret tt.

(** ** The program's own memory accesses

    Reading or writing through NULL or a dangling pointer, and freeing a
    block twice, are undefined behaviour: [Fault]. *)

Definition alloc (b : block) : M loc :=
  fun w => let l := fresh (dom (mem w)) in Ok l (set_mem (<[l := b]> (mem w)) w).

Definition load_renderer (p : ptr) : M audio_renderer_alsa_t :=
  fun w => match p with
           | Some l => match mem w !! l with
                       | Some (BRenderer r) => Ok r w
                       | _ => Fault
                       end
           | None => Fault
           end.

Definition store_renderer (p : ptr) (r : audio_renderer_alsa_t) : M unit :=
  fun w => match p with
           | Some l => match mem w !! l with
                       | Some (BRenderer _) => Ok tt (set_mem (<[l := BRenderer r]> (mem w)) w)
                       | _ => Fault
                       end
           | None => Fault
           end.

Definition free (p : ptr) : M unit :=
  fun w => match p with
           | Some l => match mem w !! l with
                       | Some _ => Ok tt (set_mem (delete l (mem w)) w)
                       | None => Fault
                       end
           | None => Ok tt w
           end.

(** An address-taken local goes out of scope. *)
Definition release (l : loc) : M unit :=
  fun w => Ok tt (set_mem (delete l (mem w)) w).

Definition load_long (l : loc) : M Z :=
  fun w => match mem w !! l with Some (BLong z) => Ok z w | _ => Fault end.

Definition load_elem_list (list : loc) : M snd_ctl_elem_list_t :=
  fun w => match mem w !! list with Some (BElemList l) => Ok l w | _ => Fault end.

Definition get_mHasCtrlVolume : M bool := fun w => Ok (mHasCtrlVolume w) w.

Definition put_mHasCtrlVolume (b : bool) : M unit :=
  fun w => Ok tt (set_mHasCtrlVolume b w).

(** Field assignments [renderer->f = v]. *)
Definition with_base (b : audio_renderer_t) (r : audio_renderer_alsa_t) :=
  {| base := b; config := config r; audio_decoder := audio_decoder r;
     audio_renderer := audio_renderer r; ctl := ctl r; ctl_elem_id := ctl_elem_id r |}.

Definition with_config c (r : audio_renderer_alsa_t) :=
  {| base := base r; config := c; audio_decoder := audio_decoder r;
     audio_renderer := audio_renderer r; ctl := ctl r; ctl_elem_id := ctl_elem_id r |}.

Definition with_audio_decoder d (r : audio_renderer_alsa_t) :=
  {| base := base r; config := config r; audio_decoder := d;
     audio_renderer := audio_renderer r; ctl := ctl r; ctl_elem_id := ctl_elem_id r |}.

Definition with_audio_renderer p (r : audio_renderer_alsa_t) :=
  {| base := base r; config := config r; audio_decoder := audio_decoder r;
     audio_renderer := p; ctl := ctl r; ctl_elem_id := ctl_elem_id r |}.

Definition with_ctl c (r : audio_renderer_alsa_t) :=
  {| base := base r; config := config r; audio_decoder := audio_decoder r;
     audio_renderer := audio_renderer r; ctl := c; ctl_elem_id := ctl_elem_id r |}.

Definition with_ctl_elem_id i (r : audio_renderer_alsa_t) :=
  {| base := base r; config := config r; audio_decoder := audio_decoder r;
     audio_renderer := audio_renderer r; ctl := ctl r; ctl_elem_id := i |}.

Definition field {A} (f : audio_renderer_alsa_t -> A) (renderer : ptr) : M A :=
  let* r := load_renderer renderer in ret (f r).

Definition assign {A} (upd : A -> audio_renderer_alsa_t -> audio_renderer_alsa_t)
    (renderer : ptr) : lvalue A :=
  fun v => let* r := load_renderer renderer in store_renderer renderer (upd v r).

(** [strstr(haystack, needle) != NULL] *)
Fixpoint strstr (haystack needle : string) : bool :=
  String.prefix needle haystack ||
  match haystack with
  | EmptyString => false
  | String _ rest => strstr rest needle
  end.

(** ** The cast [(long)volume] and the product [(long)volume * 200]

    The cast discards the fractional part.  It is undefined for a NaN, an
    infinity and a value outside the range of [long]; so is a signed
    product that overflows. *)

Definition Ztrunc_float (v : float) : option Z :=
  match v with
  | S754_zero _ => Some 0
  | S754_finite s m e => Some (cond_Zopp s (Z.shiftl (Z.pos m) e))
  | S754_infinity _ | S754_nan => None
  end.

Definition in_long (bits z : Z) : bool :=
  (- 2 ^ (bits - 1) <=? z) && (z <? 2 ^ (bits - 1)).

Definition long_of_float (bits : Z) (v : float) : option Z :=
  match Ztrunc_float v with
  | Some z => if in_long bits z then Some z else None
  | None => None
  end.

Definition long_mul (bits x y : Z) : option Z :=
  if in_long bits (x * y) then Some (x * y) else None.

Definition scaled_dB (bits : Z) (volume : float) : option Z :=
  match long_of_float bits volume with
  | Some z => long_mul bits z 200
  | None => None
  end.

Definition with_logger (lg : ptr) (r : audio_renderer_alsa_t) :=
  with_base {| logger := lg; funcs := funcs (base r); type := type (base r) |} r.

Definition with_funcs (f : option audio_renderer_funcs_t) (r : audio_renderer_alsa_t) :=
  with_base {| logger := logger (base r); funcs := f; type := type (base r) |} r.

Definition with_type (t : audio_renderer_type_t) (r : audio_renderer_alsa_t) :=
  with_base {| logger := logger (base r); funcs := funcs (base r); type := t |} r.

Definition base_logger (r : audio_renderer_alsa_t) : ptr := logger (base r).

Section Renderer.

Variable E : Env.

(** ** The libraries

    A library call is appended to the trace together with the return code
    the environment gives it.  What a library does with a NULL or stale
    object is decided inside the library, not in this file: the model
    leaves the state as it is and returns the environment's code. *)

Definition call_lib (c : call) : M Z :=
  fun w => let r := reply E (trace w) c in Ok r (record (Lib c r) w).

(** Modelled from the spec: [logger_log] is not among the sources; the
    sink receives the severity and the message, which the model appends to
    the trace. *)
Definition logger_log (lg : ptr) (lvl : logger_level) (fmt : log_arg)
    (args : list log_arg) : M unit :=
  fun w => Ok tt (record (Log lg lvl fmt args) w).

Definition get_trace : M (list event) := fun w => Ok (trace w) w.

Definition get_mixer : M (gmap Z (list Z)) := fun w => Ok (mixer w) w.

Definition put_mixer (x : gmap Z (list Z)) : M unit := fun w => Ok tt (set_mixer x w).

Definition peek (p : ptr) : M (option block) :=
  fun w => Ok (match p with Some l => mem w !! l | None => None end) w.

Definition poke (l : loc) (b : block) : M unit :=
  fun w => Ok tt (set_mem (<[l := b]> (mem w)) w).

Definition calloc_renderer : M ptr :=
  let* r := call_lib Calloc in
  if r =? 0 then ret None
  else let* l := alloc (BRenderer zero_renderer) in ret (Some l).

Definition malloc (size : Z) : M ptr :=
  let* r := call_lib (Malloc size) in
  if r =? 0 then ret None
  else let* l := alloc (BBytes size) in ret (Some l).

Definition aacDecoder_Open (transport : TRANSPORT_TYPE) (nrOfLayers : Z) : M ptr :=
  let* r := call_lib (AacDecoder_Open transport nrOfLayers) in
  if r =? 0 then ret None
  else let* l := alloc (BDecoder false) in ret (Some l).

Definition aacDecoder_ConfigRaw (self : ptr) (conf : list (list Z)) (length : Z) : M Z :=
  let* r := call_lib (AacDecoder_ConfigRaw self conf length) in
  let* b := peek self in
  match self, b with
  | Some l, Some (BDecoder _) => when (r =? AAC_DEC_OK) (poke l (BDecoder true))
  | _, _ => ret tt
  end;;
  ret r.

Definition aacDecoder_GetStreamInfo (self : ptr) : M (option CStreamInfo) :=
  let* r := call_lib (AacDecoder_GetStreamInfo self) in
  if r =? 0 then ret None
  else let* t := get_trace in ret (Some (stream_info E t)).

Definition aacDecoder_Fill (self : ptr) (data : list Z) (bufferSize bytesValid : Z) : M Z :=
  call_lib (AacDecoder_Fill self data bufferSize bytesValid).

Definition aacDecoder_DecodeFrame (self : ptr) (pTimeData : ptr)
    (timeDataSize flags : Z) : M Z :=
  call_lib (AacDecoder_DecodeFrame self pTimeData timeDataSize flags).

Definition aacDecoder_Close (self : ptr) : M unit :=
  call_lib (AacDecoder_Close self);;
  let* b := peek self in
  match self, b with
  | Some l, Some (BDecoder _) => release l
  | _, _ => ret tt
  end.

Definition snd_pcm_open (pcmp : lvalue ptr) (name : string)
    (stream : snd_pcm_stream_t) (mode : Z) : M Z :=
  let* r := call_lib (Snd_pcm_open name stream mode) in
  when (0 <=? r) (let* l := alloc (BPcm None) in pcmp (Some l));;
  ret r.

Definition snd_pcm_set_params (pcm : ptr) (format : snd_pcm_format_t)
    (access : snd_pcm_access_t) (channels rate soft_resample latency : Z) : M Z :=
  let s := {| pcm_format := format; pcm_access := access; pcm_channels := channels;
              pcm_rate := rate; pcm_soft_resample := soft_resample;
              pcm_latency := latency |} in
  let* r := call_lib (Snd_pcm_set_params pcm s) in
  let* b := peek pcm in
  match pcm, b with
  | Some l, Some (BPcm _) => when (0 <=? r) (poke l (BPcm (Some s)))
  | _, _ => ret tt
  end;;
  ret r.

(** On a stream that has its parameters: [bytes * 8 / frame_bits]. *)
Definition snd_pcm_bytes_to_frames (pcm : ptr) (bytes : Z) : M Z :=
  let* b := peek pcm in
  match b with
  | Some (BPcm (Some s)) => ret (bytes * 8 / frame_bits s)
  | _ => call_lib (Snd_pcm_bytes_to_frames pcm bytes)
  end.

Definition snd_pcm_writei (pcm : ptr) (buffer : ptr) (size : Z) : M Z :=
  call_lib (Snd_pcm_writei pcm buffer size).

Definition snd_pcm_recover (pcm : ptr) (err silent : Z) : M Z :=
  call_lib (Snd_pcm_recover pcm err silent).

Definition snd_pcm_drain (pcm : ptr) : M Z :=
  call_lib (Snd_pcm_drain pcm).

Definition snd_pcm_close (pcm : ptr) : M Z :=
  let* r := call_lib (Snd_pcm_close pcm) in
  let* b := peek pcm in
  match pcm, b with
  | Some l, Some (BPcm _) => release l
  | _, _ => ret tt
  end;;
  ret r.

Definition snd_ctl_open (ctlp : lvalue ptr) (name : string) (mode : Z) : M Z :=
  let* r := call_lib (Snd_ctl_open name mode) in
  when (0 <=? r) (let* l := alloc (BCtl name) in ctlp (Some l));;
  ret r.

Definition snd_ctl_close (ctl : ptr) : M Z :=
  let* r := call_lib (Snd_ctl_close ctl) in
  let* b := peek ctl in
  match ctl, b with
  | Some l, Some (BCtl _) => release l
  | _, _ => ret tt
  end;;
  ret r.

Definition snd_ctl_elem_id_malloc (idp : lvalue ptr) : M Z :=
  let* r := call_lib Snd_ctl_elem_id_malloc in
  when (0 <=? r) (let* l := alloc (BElemId zero_elem_id) in idp (Some l));;
  ret r.

Definition snd_ctl_elem_id_set_interface (obj : ptr) (val : snd_ctl_elem_iface_t) : M unit :=
  let* b := peek obj in
  match obj, b with
  | Some l, Some (BElemId id) => poke l (BElemId {| iface := val; numid := numid id |})
  | _, _ => ret tt
  end.

Definition snd_ctl_elem_id_set_numid (obj : ptr) (val : Z) : M unit :=
  let* b := peek obj in
  match obj, b with
  | Some l, Some (BElemId id) => poke l (BElemId {| iface := iface id; numid := val |})
  | _, _ => ret tt
  end.

(** The listing reports how many elements the card has and fills as many
    entries as the list has space for. *)
Definition snd_ctl_elem_list (ctl : ptr) (list : loc) : M Z :=
  let* lb := peek (Some list) in
  let space := match lb with Some (BElemList l) => list_space l | _ => O end in
  let* r := call_lib (Snd_ctl_elem_list ctl space) in
  let* cb := peek ctl in
  match cb with
  | Some (BCtl _) =>
      when (0 <=? r)
        (let* t := get_trace in
         let es := ctl_elems E t in
         poke list (BElemList {| list_space := space; list_used := take space es;
                                 list_count := length es |}))
  | _ => ret tt
  end;;
  ret r.

Definition snd_ctl_elem_list_get_count (list : loc) : M nat :=
  let* l := load_elem_list list in ret (list_count l).

Definition snd_ctl_elem_list_alloc_space (list : loc) (entries : nat) : M Z :=
  let* l := load_elem_list list in
  let* r := call_lib (Snd_ctl_elem_list_alloc_space entries) in
  when (0 <=? r)
    (poke list (BElemList {| list_space := entries; list_used := [];
                             list_count := list_count l |}));;
  ret r.

Definition snd_ctl_elem_list_free_space (list : loc) : M unit :=
  let* l := load_elem_list list in
  poke list (BElemList {| list_space := O; list_used := []; list_count := list_count l |}).

(** The name of entry [idx]; NULL when the entry was not filled. *)
Definition snd_ctl_elem_list_get_name (list : loc) (idx : nat) : M (option string) :=
  let* l := load_elem_list list in ret (elem_name <$> list_used l !! idx).

Definition snd_ctl_elem_list_get_numid (list : loc) (idx : nat) : M Z :=
  let* l := load_elem_list list in
  ret (match list_used l !! idx with Some e => elem_numid e | None => 0 end).

Definition elem_id_at (id : ptr) : M (option snd_ctl_elem_id_t) :=
  let* b := peek id in
  ret (match b with Some (BElemId i) => Some i | _ => None end).

Definition snd_ctl_convert_from_dB (ctl : ptr) (id : ptr) (db_gain : Z)
    (value : loc) (xdir : Z) : M Z :=
  let* i := elem_id_at id in
  let* r := call_lib (Snd_ctl_convert_from_dB ctl i db_gain xdir) in
  let* cb := peek ctl in
  match cb, i with
  | Some (BCtl _), Some _ =>
      when (0 <=? r)
        (let* t := get_trace in poke value (BLong (dB_to_raw E t i db_gain)))
  | _, _ => ret tt
  end;;
  ret r.

Definition elem_value_at (value : loc) : M (option snd_ctl_elem_value_t) :=
  let* b := peek (Some value) in
  ret (match b with Some (BElemValue v) => Some v | _ => None end).

Definition snd_ctl_elem_value_set_id (obj : loc) (ptr_ : ptr) : M unit :=
  let* v := elem_value_at obj in
  let* i := elem_id_at ptr_ in
  match v, i with
  | Some v, Some i => poke obj (BElemValue {| value_id := i; integer := integer v |})
  | _, _ => ret tt
  end.

Definition snd_ctl_elem_value_set_integer (obj : loc) (idx : nat) (val : Z) : M unit :=
  let* v := elem_value_at obj in
  match v with
  | Some v => poke obj (BElemValue {| value_id := value_id v;
                                     integer := <[idx := val]> (integer v) |})
  | None => ret tt
  end.

(** A successful write installs the value's integers on the card's element. *)
Definition snd_ctl_elem_write (ctl : ptr) (data : loc) : M Z :=
  let* v := elem_value_at data in
  let* r := call_lib (Snd_ctl_elem_write ctl v) in
  let* cb := peek ctl in
  match cb, v with
  | Some (BCtl _), Some v =>
      when (0 <=? r)
        (let* m := get_mixer in put_mixer (<[numid (value_id v) := integer v]> m))
  | _, _ => ret tt
  end;;
  ret r.

(** [strstr] on a NULL haystack is undefined. *)
Definition cstring (s : option string) : M string :=
  match s with Some s => ret s | None => fault end.

Definition defined {A} (o : option A) : M A :=
  match o with Some a => ret a | None => fault end.

(** ** audio_renderer_alsa.c *)

(** Two string literals of the file hold an escape: [\t], a horizontal
    tab (character 9), and [\n], a line feed (character 10). *)
Definition TAB : string := Eval cbv in String (Ascii.ascii_of_nat 9) EmptyString.

Definition LF : string := Eval cbv in String (Ascii.ascii_of_nat 10) EmptyString.

(** ["> stream info: channel = %d\tsample_rate = %d\tframe_size = %d\taot = %d\tbitrate = %d"] *)
Definition stream_info_format : string :=
  Eval cbv in
    String.concat TAB
      [ "> stream info: channel = %d"; "sample_rate = %d"; "frame_size = %d";
        "aot = %d"; "bitrate = %d" ].

(** ["ALSA: Expected write %li, but wrote %li frames)\n"] *)
Definition short_write_format : string :=
  Eval cbv in String.append "ALSA: Expected write %li, but wrote %li frames)" LF.

(** The macro pastes [err] twice: once in the test and once in the
    argument of [snd_strerror], so a failing call is issued a second time
    when the log line is built. *)
Definition CHK_ALSA_ERRNO (err : M Z) (msg : string) (r : M ptr) : M unit :=
  let* e := err in
  when (e <? 0)
    (let* lg := r in
     let* e' := err in
     logger_log lg LOGGER_ERR (AStr "%s: %s") [AStr msg; AStrerror e']).

Definition audio_renderer_alsa_destroy_decoder (renderer : ptr) : M unit :=
  let* d := field audio_decoder renderer in
  aacDecoder_Close d.

Definition audio_renderer_alsa_init_decoder (renderer : ptr) : M Z :=
  let* d := aacDecoder_Open TT_MP4_RAW 1 in
  assign with_audio_decoder renderer d;;
  let* d := field audio_decoder renderer in
  match d with
  | None =>
      let* lg := field base_logger renderer in
      logger_log lg LOGGER_ERR (AStr "aacDecoder open failed!") [];;
      ret (-1)
  | Some _ =>
      (* ASC config binary data *)
      let eld_conf := [0xF8; 0xE8; 0x50; 0x00] in
      let conf := [eld_conf] in
      let conf_len := Z.of_nat (length eld_conf) in
      let* d := field audio_decoder renderer in
      let* r := aacDecoder_ConfigRaw d conf conf_len in
      if negb (r =? AAC_DEC_OK) then
        let* lg := field base_logger renderer in
        logger_log lg LOGGER_ERR (AStr "Unable to set configRaw") [];;
        ret (-2)
      else
        let* d := field audio_decoder renderer in
        let* aac_stream_info := aacDecoder_GetStreamInfo d in
        match aac_stream_info with
        | None =>
            let* lg := field base_logger renderer in
            logger_log lg LOGGER_ERR (AStr "aacDecoder_GetStreamInfo failed!") [];;
            ret (-3)
        | Some i =>
            let* lg := field base_logger renderer in
            logger_log lg LOGGER_DEBUG
              (AStr stream_info_format)
              [AInt (channelConfig i); AInt (aacSampleRate i);
               AInt (aacSamplesPerFrame i); AInt (aot i); AInt (bitRate i)];;
            ret 1
        end
  end.

Definition audio_renderer_rpi_destroy_renderer (renderer : ptr) : M unit :=
  CHK_ALSA_ERRNO (let* p := field audio_renderer renderer in snd_pcm_drain p)
    "ALSA PCM drain" (field base_logger renderer);;
  CHK_ALSA_ERRNO (let* p := field audio_renderer renderer in snd_pcm_close p)
    "ALSA PCM close" (field base_logger renderer);;
  CHK_ALSA_ERRNO (let* c := field ctl renderer in snd_ctl_close c)
    "ALSA CTL close" (field base_logger renderer).

(** The loop [for ( ;count != 0; count-- )] that looks for the element to
    adjust the volume with, from the last entry down to the first. *)
Fixpoint find_playback_volume (renderer : ptr) (list : loc) (count : nat) : M unit :=
  match count with
  | O => ret tt
  | S idx =>
      let* name := snd_ctl_elem_list_get_name list idx in
      let* name := cstring name in
      if strstr name "Playback Volume" then
        let* id := field ctl_elem_id renderer in
        let* n := snd_ctl_elem_list_get_numid list idx in
        snd_ctl_elem_id_set_numid id n
      else
        when (Nat.eqb count 1)
          (let* lg := field base_logger renderer in
           logger_log lg LOGGER_INFO (AStr "Cannot control Volume for selected device") [];;
           put_mHasCtrlVolume false);;
        find_playback_volume renderer list idx
  end.

Definition audio_renderer_rpi_init_renderer (renderer : ptr)
    (video_renderer : option video_renderer_t) : M Z :=
  let* c := field config renderer in
  let* c := defined c in
  let device := match alsaString c with Some s => s | None => "default" end in
  (* Opening a connection to PCM for audio playback *)
  let* err := snd_pcm_open (assign with_audio_renderer renderer) device
                SND_PCM_STREAM_PLAYBACK 0 in
  if err <? 0 then
    let* lg := field base_logger renderer in
    logger_log lg LOGGER_ERR (AStrerror err) [];;
    ret (-51)
  else
    let* p := field audio_renderer renderer in
    let* err := snd_pcm_set_params p SND_PCM_FORMAT_S16_LE
                  SND_PCM_ACCESS_RW_INTERLEAVED 2 44100 1 100000 in
    if err <? 0 then
      let* lg := field base_logger renderer in
      logger_log lg LOGGER_ERR (AStrerror err) [];;
      ret (-52)
    else
      (* Opening a connection to the sound card to adjust the volume *)
      CHK_ALSA_ERRNO (snd_ctl_open (assign with_ctl renderer) device 0)
        "Ctrl open" (field base_logger renderer);;
      CHK_ALSA_ERRNO (snd_ctl_elem_id_malloc (assign with_ctl_elem_id renderer))
        "Ctrl mem allocation" (field base_logger renderer);;
      (let* id := field ctl_elem_id renderer in
       snd_ctl_elem_id_set_interface id SND_CTL_ELEM_IFACE_MIXER);;
      (* Finding the right sound card item to adjust the volume *)
      let* list := alloc (BElemList zero_elem_list) in
      CHK_ALSA_ERRNO (let* c := field ctl renderer in snd_ctl_elem_list c list)
        "Get ALSA control element list" (field base_logger renderer);;
      let* count := snd_ctl_elem_list_get_count list in
      CHK_ALSA_ERRNO (snd_ctl_elem_list_alloc_space list count)
        "Alloc space for ALSA ctrl ID" (field base_logger renderer);;
      CHK_ALSA_ERRNO (let* c := field ctl renderer in snd_ctl_elem_list c list)
        "Get ALSA control element list" (field base_logger renderer);;
      put_mHasCtrlVolume true;;
      find_playback_volume renderer list count;;
      snd_ctl_elem_list_free_space list;;
      release list;;
      ret 1.

Definition audio_renderer_alsa_init (logger : ptr)
    (video_renderer : option video_renderer_t)
    (config : option audio_renderer_config_t) : M ptr :=
  let* renderer := calloc_renderer in
  match renderer with
  | None => ret None
  | Some _ =>
      assign with_logger renderer logger;;
      assign with_funcs renderer (Some audio_renderer_alsa_funcs);;
      assign with_type renderer AUDIO_RENDERER_RPI;;
      (* Only refer to an existing video renderer if it's an RPI renderer,
         in which case we have to share resources *)
      let video_renderer :=
        match video_renderer with
        | Some v => match video_type v with
                    | VIDEO_RENDERER_RPI => video_renderer
                    | _ => None
                    end
        | None => None
        end in
      assign with_config renderer config;;
      let* r := audio_renderer_alsa_init_decoder renderer in
      if negb (r =? 1) then
        free renderer;;
        ret None
      else
        let* r := audio_renderer_rpi_init_renderer renderer video_renderer in
        if negb (r =? 1) then
          audio_renderer_alsa_destroy_decoder renderer;;
          free renderer;;
          ret None
        else
          ret renderer
  end.

Definition audio_renderer_alsa_start (renderer : ptr) : M unit :=
  (* Nothing to do *)
  ret tt.

Definition audio_renderer_alsa_render_buffer (renderer : ptr) (ntp : ptr)
    (data : list Z) (data_len : Z) (pts : Z) : M unit :=
  if data_len =? 0 then ret tt
  else
    let r := renderer in
    let* lg := field base_logger renderer in
    logger_log lg LOGGER_DEBUG (AStr "Got AAC data of %d bytes") [AInt data_len];;
    (* We assume that every buffer contains exactly 1 frame. *)
    let buffer_size := UINT_of_int data_len in
    let bytes_valid := UINT_of_int data_len in
    let* d := field audio_decoder r in
    let* error := aacDecoder_Fill d data buffer_size bytes_valid in
    when (negb (error =? AAC_DEC_OK))
      (let* lg := field base_logger renderer in
       logger_log lg LOGGER_ERR (AStr "aacDecoder_Fill error : %x") [AInt error]);;
    let time_data_size := 4 * 480 in
    (* The buffer for the decoded AAC frames *)
    let* p_time_data := malloc time_data_size in
    let* d := field audio_decoder r in
    let* error := aacDecoder_DecodeFrame d p_time_data time_data_size 0 in
    when (negb (error =? AAC_DEC_OK))
      (let* lg := field base_logger renderer in
       logger_log lg LOGGER_ERR (AStr "aacDecoder_DecodeFrame error : 0x%x") [AInt error]);;
    let* p := field audio_renderer r in
    let* receivedFrames := snd_pcm_bytes_to_frames p time_data_size in
    let* p := field audio_renderer r in
    let* playedFrames := snd_pcm_writei p p_time_data receivedFrames in
    let* playedFrames :=
      (if playedFrames <? 0 then
         let* p := field audio_renderer r in
         snd_pcm_recover p (int_of_long playedFrames) 0
       else ret playedFrames) in
    when (playedFrames <? 0)
      (let* lg := field base_logger renderer in
       logger_log lg LOGGER_ERR (AStrerror (int_of_long playedFrames)) []);;
    when ((0 <? playedFrames) && (playedFrames <? receivedFrames))
      (let* lg := field base_logger renderer in
       logger_log lg LOGGER_ERR
         (AStr short_write_format)
         [AInt receivedFrames; AInt playedFrames]);;
    free p_time_data.

Definition audio_renderer_alsa_set_volume (renderer : ptr) (volume : float) : M unit :=
  let* has := get_mHasCtrlVolume in
  if negb has then ret tt
  else
    let r := renderer in
    let* t := get_trace in
    let* raw := alloc (BLong (indeterminate E t)) in
    CHK_ALSA_ERRNO
      (let* c := field ctl r in
       let* id := field ctl_elem_id r in
       let* db := defined (scaled_dB (LONG_BITS E) volume) in
       snd_ctl_convert_from_dB c id db raw 0)
      "Convert" (field base_logger r);;
    let* value := alloc (BElemValue zero_elem_value) in
    (let* id := field ctl_elem_id r in snd_ctl_elem_value_set_id value id);;
    (let* x := load_long raw in snd_ctl_elem_value_set_integer value 0 x);;
    (let* x := load_long raw in snd_ctl_elem_value_set_integer value 1 x);;
    CHK_ALSA_ERRNO (let* c := field ctl r in snd_ctl_elem_write c value)
      "Set volume" (field base_logger r);;
    release value;;
    release raw.

Definition audio_renderer_alsa_flush (renderer : ptr) : M unit :=
  (* Nothing to do *)
  ret tt.

Definition audio_renderer_alsa_destroy (renderer : ptr) : M unit :=
  match renderer with
  | Some _ =>
      let r := renderer in
      audio_renderer_alsa_flush renderer;;
      audio_renderer_alsa_destroy_decoder r;;
      audio_renderer_rpi_destroy_renderer r;;
      free renderer
  | None => ret tt
  end.

End Renderer.

(** ** Observations *)

(** The parameters the renderer negotiates: S16_LE, interleaved, 2 channels,
    44100 Hz, resampling allowed, 100 ms. *)
Definition playback_setup : pcm_setup :=
  {| pcm_format := SND_PCM_FORMAT_S16_LE; pcm_access := SND_PCM_ACCESS_RW_INTERLEAVED;
     pcm_channels := 2; pcm_rate := 44100; pcm_soft_resample := 1;
     pcm_latency := 100000 |}.

Definition is_fill (e : event) : bool :=
  match e with Lib (AacDecoder_Fill _ _ _ _) _ => true | _ => false end.

Definition is_decode (e : event) : bool :=
  match e with Lib (AacDecoder_DecodeFrame _ _ _ _) _ => true | _ => false end.

Definition is_malloc (e : event) : bool :=
  match e with Lib (Malloc _) _ => true | _ => false end.

Definition is_writei (e : event) : bool :=
  match e with Lib (Snd_pcm_writei _ _ _) _ => true | _ => false end.

Definition is_recover (e : event) : bool :=
  match e with Lib (Snd_pcm_recover _ _ _) _ => true | _ => false end.

Definition is_convert (e : event) : bool :=
  match e with Lib (Snd_ctl_convert_from_dB _ _ _ _) _ => true | _ => false end.

Definition is_elem_write (e : event) : bool :=
  match e with Lib (Snd_ctl_elem_write _ _) _ => true | _ => false end.

Definition is_error_log (e : event) : bool :=
  match e with Log _ LOGGER_ERR _ _ => true | _ => false end.

(** The calls of one kind in a trace, in the order they were issued. *)
Definition calls (kind : event -> bool) (t : list event) : list event :=
  List.filter kind t.

(** A block is a resource held by a library: an open decoder, PCM stream
    or control handle. *)
Definition is_handle (b : block) : bool :=
  match b with
  | BDecoder _ | BPcm _ | BCtl _ => true
  | _ => false
  end.

Definition open_handles (w : World) : list (loc * block) :=
  List.filter (fun lb => is_handle (snd lb)) (map_to_list (mem w)).

(** [truncf]: the float that keeps the integral part of [v] and drops its
    fraction, with the mantissa aligned as binary32 requires. *)
Definition truncf (v : float) : float :=
  match v with
  | S754_finite s m e =>
      if 0 <=? e then v
      else match Z.shiftl (Z.pos m) e with
           | Z.pos q =>
               let '(m', e') := shl_align q 0 (fexp 24 128 (Z.pos (digits2_pos q))) in
               S754_finite s m' e'
           | _ => S754_zero s
           end
  | _ => v
  end.

Definition reply_of (e : event) : Z :=
  match e with Lib _ r => r | Log _ _ _ _ => 0 end.

(** A library call that returned a negative code. *)
Definition failed (e : event) : bool :=
  match e with Lib _ r => r <? 0 | Log _ _ _ _ => false end.

(** The element value that carries [raw] at positions 0 and 1. *)
Definition both_channels (id : snd_ctl_elem_id_t) (raw : Z) : snd_ctl_elem_value_t :=
  {| value_id := id;
     integer := <[1%nat := raw]> (<[0%nat := raw]> (integer zero_elem_value)) |}.

(** What one call of [audio_renderer_alsa_render_buffer] with a non-empty
    buffer leaves behind: the events [evs] it appended to the trace. *)
Definition render_post (w : World) (r : audio_renderer_alsa_t) (p : loc)
    (data : list Z) (data_len : Z) (w' : World) : Prop :=
  mem w' = mem w /\ mHasCtrlVolume w' = mHasCtrlVolume w /\ mixer w' = mixer w /\
  exists evs m f d buf played,
    trace w' = trace w ++ evs /\
    calls is_malloc evs = [Lib (Malloc (4 * 480)) m] /\
    (m = 0 /\ buf = None \/ m <> 0 /\ exists b, buf = Some b /\ mem w !! b = None) /\
    calls is_fill evs =
      [Lib (AacDecoder_Fill (audio_decoder r) data (UINT_of_int data_len)
              (UINT_of_int data_len)) f] /\
    calls is_decode evs =
      [Lib (AacDecoder_DecodeFrame (audio_decoder r) buf (4 * 480) 0) d] /\
    calls is_writei evs = [Lib (Snd_pcm_writei (Some p) buf 480) played] /\
    (0 <= played -> calls is_recover evs = []) /\
    (played < 0 ->
     exists rec,
       calls is_recover evs =
         [Lib (Snd_pcm_recover (Some p) (int_of_long played) 0) rec] /\
       (rec < 0 ->
        last evs = Some (Log (base_logger r) LOGGER_ERR (AStrerror (int_of_long rec)) []))).

(** What one call of [audio_renderer_alsa_set_volume] leaves behind when
    volume control is enabled. *)
Definition volume_post (E : Env) (w : World) (r : audio_renderer_alsa_t) (c : loc)
    (id : snd_ctl_elem_id_t) (db : Z) (w' : World) : Prop :=
  mem w' = mem w /\ mHasCtrlVolume w' = mHasCtrlVolume w /\
  exists evs raw rc,
    trace w' = trace w ++ evs /\
    Forall (fun e => exists x, e = Lib (Snd_ctl_convert_from_dB (Some c) (Some id) db 0) x)
      (calls is_convert evs) /\
    last (calls is_convert evs) =
      Some (Lib (Snd_ctl_convert_from_dB (Some c) (Some id) db 0) rc) /\
    (0 <= rc -> raw = dB_to_raw E (trace w ++ calls is_convert evs) (Some id) db) /\
    (rc < 0 -> raw = indeterminate E (trace w)) /\
    calls is_elem_write evs <> [] /\
    Forall (fun e => exists x,
              e = Lib (Snd_ctl_elem_write (Some c) (Some (both_channels id raw))) x)
      (calls is_elem_write evs) /\
    mixer w' =
      (if existsb (fun e => 0 <=? reply_of e) (calls is_elem_write evs)
       then <[numid id := integer (both_channels id raw)]> (mixer w)
       else mixer w) /\
    (existsb failed evs = true -> existsb is_error_log evs = true).

(** Weakest precondition: the computation returns, and its result and
    final world satisfy [Q]. *)
Definition wp {A} (m : M A) (w : World) (Q : A -> World -> Prop) : Prop :=
  match m w with
  | Ok a w' => Q a w'
  | Fault => False
  end.

(** ** Sample environments and worlds *)

Definition sample_info : CStreamInfo :=
  {| channelConfig := 2; aacSampleRate := 44100; aacSamplesPerFrame := 480;
     aot := 39; bitRate := 0 |}.

Definition env_of (rep : list event -> call -> Z) (elems : list ctl_elem) : Env :=
  {| LONG_BITS := 32; reply := rep; stream_info := fun _ => sample_info;
     ctl_elems := fun _ => elems; dB_to_raw := fun _ _ db => db / 100 + 100;
     indeterminate := fun _ => 7 |}.

(** Every call succeeds and the device plays all it is given. *)
Definition nominal_reply (t : list event) (c : call) : Z :=
  match c with
  | Calloc | Malloc _ | AacDecoder_Open _ _ | AacDecoder_GetStreamInfo _ => 1
  | Snd_pcm_writei _ _ n => n
  | _ => 0
  end.

Definition card : list ctl_elem :=
  [ {| elem_numid := 1; elem_name := "PCM Playback Switch" |};
    {| elem_numid := 2; elem_name := "PCM Playback Volume" |};
    {| elem_numid := 3; elem_name := "Mic Capture Volume" |} ].

Definition empty_world : World :=
  {| mem := ∅; mHasCtrlVolume := false; mixer := ∅; trace := [] |}.

Definition sample_config : option audio_renderer_config_t :=
  Some {| alsaString := None |}.

Definition sample_logger : ptr := Some 99%positive.

Definition world_of {A} (r : result A) : World :=
  match r with Ok _ w => w | Fault => empty_world end.

Definition nominal_env : Env := env_of nominal_reply card.

(** The world a successful construction on [card] leaves; the handle it
    returns is address 1. *)
Definition ready_world : World :=
  world_of (audio_renderer_alsa_init nominal_env sample_logger None sample_config
              empty_world).

Definition ready_renderer : audio_renderer_alsa_t :=
  {| base := {| logger := sample_logger; funcs := Some audio_renderer_alsa_funcs;
                type := AUDIO_RENDERER_RPI |};
     config := sample_config;
     audio_decoder := Some 2%positive;
     audio_renderer := Some 3%positive;
     ctl := Some 4%positive;
     ctl_elem_id := Some 5%positive |}.

(** The decoder rejects the input both when it is filled and when a frame
    is requested. *)
Definition decode_error_reply (t : list event) (c : call) : Z :=
  match c with
  | AacDecoder_Fill _ _ _ _ => 0x2003
  | AacDecoder_DecodeFrame _ _ _ _ => 0x4002
  | _ => nominal_reply t c
  end.

(** The device reports an underrun (-EPIPE) and cannot recover from it. *)
Definition underrun_reply (t : list event) (c : call) : Z :=
  match c with
  | Snd_pcm_writei _ _ _ => -32
  | Snd_pcm_recover _ err _ => err
  | _ => nominal_reply t c
  end.

(** -30.0f and -30.5f *)
Definition minus_30 : float := S754_finite true 15728640 (-19).

Definition minus_30_5 : float := S754_finite true 15990784 (-19).

(** ** Scenarios

    What an environment promises, as a predicate on each call and the
    code it returns. *)

Definition answers (E : Env) (good : call -> Z -> Prop) : Prop :=
  forall t c, good c (reply E t c).

(** Allocation and the decoder phase go through. *)
Definition decoder_phase_succeeds (c : call) (r : Z) : Prop :=
  match c with
  | Calloc | AacDecoder_Open _ _ | AacDecoder_GetStreamInfo _ => r <> 0
  | AacDecoder_ConfigRaw _ _ _ => r = AAC_DEC_OK
  | _ => True
  end.

(** So does the PCM phase. *)
Definition pcm_phase_succeeds (c : call) (r : Z) : Prop :=
  match c with
  | Snd_pcm_open _ _ _ | Snd_pcm_set_params _ _ => 0 <= r
  | _ => decoder_phase_succeeds c r
  end.

(** The four construction failures that return an error code. *)
Definition decoder_open_fails (c : call) (r : Z) : Prop :=
  match c with
  | Calloc => r <> 0
  | AacDecoder_Open _ _ => r = 0
  | _ => True
  end.

Definition config_raw_fails (c : call) (r : Z) : Prop :=
  match c with
  | Calloc | AacDecoder_Open _ _ => r <> 0
  | AacDecoder_ConfigRaw _ _ _ => r <> AAC_DEC_OK
  | _ => True
  end.

Definition pcm_open_fails (c : call) (r : Z) : Prop :=
  match c with
  | Snd_pcm_open _ _ _ => r < 0
  | _ => decoder_phase_succeeds c r
  end.

Definition set_params_fails (c : call) (r : Z) : Prop :=
  match c with
  | Snd_pcm_open _ _ _ => 0 <= r
  | Snd_pcm_set_params _ _ => r < 0
  | _ => decoder_phase_succeeds c r
  end.

(** Decoder and stream are fine, the control surface cannot be opened. *)
Definition ctl_open_fails (c : call) (r : Z) : Prop :=
  match c with
  | Snd_ctl_open _ _ => r < 0
  | _ => pcm_phase_succeeds c r
  end.

(** The same scenarios as concrete return codes: -EINVAL from
    [snd_pcm_set_params], an error from [aacDecoder_ConfigRaw], -ENOENT
    from [snd_ctl_open], and a mixer that refuses conversion and write. *)
Definition set_params_fail_reply (t : list event) (c : call) : Z :=
  match c with Snd_pcm_set_params _ _ => -22 | _ => nominal_reply t c end.

Definition config_raw_fail_reply (t : list event) (c : call) : Z :=
  match c with AacDecoder_ConfigRaw _ _ _ => 0x2004 | _ => nominal_reply t c end.

Definition ctl_open_fail_reply (t : list event) (c : call) : Z :=
  match c with Snd_ctl_open _ _ => -2 | _ => nominal_reply t c end.

Definition mixer_error_reply (t : list event) (c : call) : Z :=
  match c with
  | Snd_ctl_convert_from_dB _ _ _ _ => -22
  | Snd_ctl_elem_write _ _ => -1
  | _ => nominal_reply t c
  end.

(** The element [ready_world] has matched: "PCM Playback Volume". *)
Definition ready_elem_id : snd_ctl_elem_id_t :=
  {| iface := SND_CTL_ELEM_IFACE_MIXER; numid := 2 |}.

(** A card whose elements do not offer a playback volume. *)
Definition card_without_volume : list ctl_elem :=
  [ {| elem_numid := 1; elem_name := "PCM Playback Switch" |};
    {| elem_numid := 2; elem_name := "Mic Capture Volume" |} ].

Definition no_volume_element (e : ctl_elem) : Prop :=
  strstr (elem_name e) "Playback Volume" = false.

(** [ready_world] after its handle has been destroyed. *)
Definition destroyed_world : World :=
  world_of (audio_renderer_alsa_destroy nominal_env (Some 1%positive) ready_world).

(** Two sentences of the specification, as propositions: a failing
    control-surface open makes create fail and leave memory as it was;
    a second destroy of a handle is a no-op. *)
Definition ctl_open_failure_is_fatal : Prop :=
  forall E lg vr cfg w,
    (forall t name mode, reply E t (Snd_ctl_open name mode) < 0) ->
    exists w', audio_renderer_alsa_init E lg vr cfg w = Ok None w' /\ mem w' = mem w.

Definition destroy_again_is_noop : Prop :=
  forall E h w w',
    audio_renderer_alsa_destroy E (Some h) w = Ok tt w' ->
    audio_renderer_alsa_destroy E (Some h) w' = Ok tt w'.

(** ** Further observations *)

Definition is_lib (e : event) : bool :=
  match e with Lib _ _ => true | Log _ _ _ _ => false end.

(** The events a render call may emit: decoder, allocator and PCM calls,
    and log lines. *)
Definition render_event (e : event) : bool :=
  match e with
  | Lib (AacDecoder_Fill _ _ _ _) _ | Lib (Malloc _) _
  | Lib (AacDecoder_DecodeFrame _ _ _ _) _
  | Lib (Snd_pcm_writei _ _ _) _ | Lib (Snd_pcm_recover _ _ _) _ => true
  | Lib _ _ => false
  | Log _ _ _ _ => true
  end.

(** The events a volume call may emit: conversions, element writes and
    error lines. *)
Definition volume_event (e : event) : bool :=
  match e with
  | Lib (Snd_ctl_convert_from_dB _ _ _ _) _ | Lib (Snd_ctl_elem_write _ _) _ => true
  | Lib _ _ => false
  | Log _ lvl _ _ => match lvl with LOGGER_ERR => true | _ => false end
  end.

(** The library calls of one render call, in order, and what it reports
    at the end.  [final] is what the code holds in [playedFrames] after
    the recovery step.  [buf] is what [malloc] returned: NULL when it
    failed ([m = 0]), else a block that was not allocated before the call;
    it is freed again, so memory ends as it began. *)
Definition render_order_post (w : World) (r : audio_renderer_alsa_t) (p : loc)
    (data : list Z) (data_len : Z) (w' : World) : Prop :=
  exists evs f m d buf played final,
    trace w' = trace w ++ evs /\
    take 4 (calls is_lib evs) =
      [ Lib (AacDecoder_Fill (audio_decoder r) data (UINT_of_int data_len)
               (UINT_of_int data_len)) f;
        Lib (Malloc (4 * 480)) m;
        Lib (AacDecoder_DecodeFrame (audio_decoder r) buf (4 * 480) 0) d;
        Lib (Snd_pcm_writei (Some p) buf 480) played ] /\
    drop 4 (calls is_lib evs) =
      (if played <? 0
       then [Lib (Snd_pcm_recover (Some p) (int_of_long played) 0) final]
       else []) /\
    (0 <= played -> final = played) /\
    (final < 0 ->
     last evs = Some (Log (base_logger r) LOGGER_ERR (AStrerror (int_of_long final)) [])) /\
    (0 < final < 480 ->
     last evs =
       Some (Log (base_logger r) LOGGER_ERR
               (AStr short_write_format)
               [AInt 480; AInt final])) /\
    (final = 0 \/ 480 <= final -> last evs = last (calls is_lib evs)) /\
    forallb render_event evs = true /\
    (m = 0 /\ buf = None \/ m <> 0 /\ exists b, buf = Some b /\ mem w !! b = None) /\
    mem w' = mem w.

Definition volume_events_post (w w' : World) : Prop :=
  mem w' = mem w /\ mHasCtrlVolume w' = mHasCtrlVolume w /\
  exists evs, trace w' = trace w ++ evs /\ forallb volume_event evs = true.

(** The steps of a teardown. *)
Inductive teardown_step := CloseDecoder | DrainStream | CloseStream | CloseControl.

Definition teardown_step_of (e : event) : option teardown_step :=
  match e with
  | Lib (AacDecoder_Close _) _ => Some CloseDecoder
  | Lib (Snd_pcm_drain _) _ => Some DrainStream
  | Lib (Snd_pcm_close _) _ => Some CloseStream
  | Lib (Snd_ctl_close _) _ => Some CloseControl
  | _ => None
  end.

Definition same_step (a b : teardown_step) : bool :=
  match a, b with
  | CloseDecoder, CloseDecoder | DrainStream, DrainStream
  | CloseStream, CloseStream | CloseControl, CloseControl => true
  | _, _ => false
  end.

(** A run of equal steps counts once. *)
Fixpoint squash (l : list teardown_step) : list teardown_step :=
  match l with
  | [] => []
  | a :: rest =>
      match rest with
      | b :: _ => if same_step a b then squash rest else a :: squash rest
      | [] => [a]
      end
  end.

(** Each call of a teardown is on the object of the renderer it is for;
    nothing else is called, and what is logged is an error. *)
Definition teardown_target (d p c : loc) (e : event) : Prop :=
  match e with
  | Lib (AacDecoder_Close x) _ => x = Some d
  | Lib (Snd_pcm_drain x) _ | Lib (Snd_pcm_close x) _ => x = Some p
  | Lib (Snd_ctl_close x) _ => x = Some c
  | Lib _ _ => False
  | Log _ lvl _ _ => lvl = LOGGER_ERR
  end.

Definition destroyed (w : World) (h d p c : loc) (w' : World) : Prop :=
  mem w' = delete h (delete c (delete p (delete d (mem w)))) /\
  mHasCtrlVolume w' = mHasCtrlVolume w /\ mixer w' = mixer w /\
  exists evs,
    trace w' = trace w ++ evs /\
    squash (omap teardown_step_of evs) =
      [CloseDecoder; DrainStream; CloseStream; CloseControl] /\
    Forall (teardown_target d p c) evs.

(** Further construction failures. *)
Definition calloc_fails (c : call) (r : Z) : Prop :=
  match c with
  | Calloc => r = 0
  | _ => True
  end.

Definition stream_info_fails (c : call) (r : Z) : Prop :=
  match c with
  | Calloc | AacDecoder_Open _ _ => r <> 0
  | AacDecoder_ConfigRaw _ _ _ => r = AAC_DEC_OK
  | AacDecoder_GetStreamInfo _ => r = 0
  | _ => True
  end.

(** Every call of the construction succeeds. *)
Definition construction_succeeds (c : call) (r : Z) : Prop :=
  match c with
  | Snd_ctl_open _ _ | Snd_ctl_elem_id_malloc | Snd_ctl_elem_list _ _
  | Snd_ctl_elem_list_alloc_space _ => 0 <= r
  | _ => pcm_phase_succeeds c r
  end.

(** The device the configuration names. *)
Definition device_of (cfg : audio_renderer_config_t) : string :=
  match alsaString cfg with Some s => s | None => "default" end.

Definition matches_volume (e : ctl_elem) : bool :=
  strstr (elem_name e) "Playback Volume".

(** The matching element nearest to the end of a listing. *)
Fixpoint last_match (es : list ctl_elem) : option ctl_elem :=
  match es with
  | [] => None
  | e :: rest =>
      match last_match rest with
      | Some m => Some m
      | None => if matches_volume e then Some e else None
      end
  end.

(** The world the search leaves when it has looked at the first [n]
    entries of a listing, starting from entry [n - 1]. *)
Definition searched (w : World) (r : audio_renderer_alsa_t) (i : loc)
    (id : snd_ctl_elem_id_t) (es : list ctl_elem) (n : nat) : World :=
  match last_match (take n es) with
  | Some e =>
      set_mem (<[i := BElemId {| iface := iface id; numid := elem_numid e |}]> (mem w)) w
  | None =>
      match n with
      | O => w
      | S _ =>
          set_mHasCtrlVolume false
            (record (Log (base_logger r) LOGGER_INFO
                       (AStr "Cannot control Volume for selected device") []) w)
      end
  end.

(** The value of [mHasCtrlVolume] after a construction that listed [es]. *)
Definition volume_flag (es : list ctl_elem) : bool :=
  match es with
  | [] => true
  | _ => match last_match es with Some _ => true | None => false end
  end.

Definition chosen_numid (es : list ctl_elem) : Z :=
  match last_match es with Some e => elem_numid e | None => 0 end.

(** The device a call opens. *)
Definition opened_device (e : event) : option string :=
  match e with
  | Lib (Snd_pcm_open name _ _) _ | Lib (Snd_ctl_open name _) _ => Some name
  | _ => None
  end.

(** What a construction that goes through leaves: the handle [a], the
    structure and the four objects it owns, the flag, and nothing else
    changed in memory; stream and control handle were opened on the same
    device, nothing was closed and no error was logged. *)
Definition constructed (lg : ptr) (cfg : audio_renderer_config_t) (es : list ctl_elem)
    (w : World) (a : ptr) (w' : World) : Prop :=
  exists h d p c i,
    a = Some h /\ Forall (fun l => mem w !! l = None) [h; d; p; c; i] /\
    mem w' !! h =
      Some (BRenderer
              {| base := {| logger := lg; funcs := Some audio_renderer_alsa_funcs;
                            type := AUDIO_RENDERER_RPI |};
                 config := Some cfg;
                 audio_decoder := Some d;
                 audio_renderer := Some p;
                 ctl := Some c;
                 ctl_elem_id := Some i |}) /\
    mem w' !! d = Some (BDecoder true) /\
    mem w' !! p = Some (BPcm (Some playback_setup)) /\
    mem w' !! c = Some (BCtl (device_of cfg)) /\
    mem w' !! i =
      Some (BElemId {| iface := SND_CTL_ELEM_IFACE_MIXER; numid := chosen_numid es |}) /\
    mHasCtrlVolume w' = volume_flag es /\
    mixer w' = mixer w /\
    (forall l, l <> h -> l <> d -> l <> p -> l <> c -> l <> i -> mem w' !! l = mem w !! l) /\
    exists evs,
      trace w' = trace w ++ evs /\
      omap opened_device evs = [device_of cfg; device_of cfg] /\
      omap teardown_step_of evs = [] /\
      calls is_error_log evs = [].

(** ** The caller's side

    The player reaches the renderer through the function table
    [audio_renderer_alsa_funcs]; a request is one call through it. *)
Inductive request :=
| Start
| RenderBuffer (ntp : ptr) (data : list Z) (data_len : Z) (pts : Z)
| SetVolume (volume : float)
| Flush.

Section Serve.

Variable E : Env.

Definition serve (renderer : ptr) (q : request) : M unit :=
  match q with
  | Start => audio_renderer_alsa_start renderer
  | RenderBuffer ntp data data_len pts =>
      audio_renderer_alsa_render_buffer E renderer ntp data data_len pts
  | SetVolume volume => audio_renderer_alsa_set_volume E renderer volume
  | Flush => audio_renderer_alsa_flush renderer
  end.

Fixpoint serve_all (renderer : ptr) (qs : list request) : M unit :=
  match qs with
  | [] => ret tt
  | q :: rest => serve renderer q;; serve_all renderer rest
  end.

End Serve.

(** The volume of a request can be scaled. *)
Definition volume_defined (bits : Z) (q : request) : Prop :=
  match q with
  | SetVolume volume => exists db, scaled_dB bits volume = Some db
  | _ => True
  end.

Definition carries_data (q : request) : bool :=
  match q with
  | RenderBuffer _ _ data_len _ => negb (data_len =? 0)
  | _ => false
  end.

(** A handle that is NULL or points to no live block. *)
Definition dangling (w : World) (renderer : ptr) : Prop :=
  match renderer with
  | Some h => mem w !! h = None
  | None => True
  end.

(** A card with two playback volumes. *)
Definition card_two_volumes : list ctl_elem :=
  [ {| elem_numid := 1; elem_name := "Master Playback Volume" |};
    {| elem_numid := 2; elem_name := "Master Playback Switch" |};
    {| elem_numid := 3; elem_name := "PCM Playback Volume" |};
    {| elem_numid := 4; elem_name := "Capture Volume" |} ].

Definition calloc_fail_reply (t : list event) (c : call) : Z :=
  match c with Calloc => 0 | _ => nominal_reply t c end.

Definition decoder_open_fail_reply (t : list event) (c : call) : Z :=
  match c with AacDecoder_Open _ _ => 0 | _ => nominal_reply t c end.

Definition stream_info_fail_reply (t : list event) (c : call) : Z :=
  match c with AacDecoder_GetStreamInfo _ => 0 | _ => nominal_reply t c end.

Definition pcm_open_fail_reply (t : list event) (c : call) : Z :=
  match c with Snd_pcm_open _ _ _ => -2 | _ => nominal_reply t c end.

(** The device plays 100 of the 480 frames. *)
Definition partial_write_reply (t : list event) (c : call) : Z :=
  match c with Snd_pcm_writei _ _ _ => 100 | _ => nominal_reply t c end.

Definition sample_requests : list request :=
  [ Start; RenderBuffer None [1; 2; 3] 3 0; SetVolume minus_30_5;
    RenderBuffer None [] 0 1; Flush; RenderBuffer None [4; 5] 2 2 ].

(** An infinite volume. *)
Definition minus_infinity : float := S754_infinity true.

(** ** A construction that gives up

    Create returns NULL; the flag and the mixer are as before; memory is
    as before except for the block [kept], if any, which is new and still
    open; the library objects closed on the way are [closed]; and exactly
    one error is logged, to the caller's logger, with a format that
    satisfies [msg]. *)
Definition aborted (w : World) (lg : ptr) (kept : option block)
    (closed : list teardown_step) (msg : log_arg -> Prop)
    (a : ptr) (w' : World) : Prop :=
  a = None /\
  mHasCtrlVolume w' = mHasCtrlVolume w /\ mixer w' = mixer w /\
  match kept with
  | None => mem w' = mem w
  | Some b => exists l, mem w !! l = None /\ mem w' = <[l := b]> (mem w)
  end /\
  exists evs fmt,
    trace w' = trace w ++ evs /\
    omap teardown_step_of evs = closed /\
    calls is_error_log evs = [Log lg LOGGER_ERR fmt []] /\ msg fmt.

(** The format is the text of a negative error code. *)
Definition error_text (fmt : log_arg) : Prop :=
  exists e, fmt = AStrerror e /\ e < 0.

(** ** A renderer ready for playback

    The handle [h] points to a live structure whose stream [p] has the
    playback parameters and whose control handle and element id are
    live. *)
Definition playable (w : World) (h : loc) (r : audio_renderer_alsa_t) (p : loc) : Prop :=
  mem w !! h = Some (BRenderer r) /\
  audio_renderer r = Some p /\
  mem w !! p = Some (BPcm (Some playback_setup)) /\
  exists c dev i id,
    ctl r = Some c /\ mem w !! c = Some (BCtl dev) /\
    ctl_elem_id r = Some i /\ mem w !! i = Some (BElemId id).

(** What serving a sequence of requests leaves: memory and flag as they
    were, one write of 480 frames to the renderer's stream for each
    request that carries data, and no call that opens, closes or
    allocates a library object. *)
Definition served (w : World) (p : loc) (qs : list request) (w' : World) : Prop :=
  mem w' = mem w /\ mHasCtrlVolume w' = mHasCtrlVolume w /\
  exists evs,
    trace w' = trace w ++ evs /\
    length (calls is_writei evs) = length (List.filter carries_data qs) /\
    Forall (fun e => exists buf x, e = Lib (Snd_pcm_writei (Some p) buf 480) x)
      (calls is_writei evs) /\
    omap opened_device evs = [] /\
    omap teardown_step_of evs = [].

Definition is_drain (e : event) : bool :=
  match e with Lib (Snd_pcm_drain _) _ => true | _ => false end.

Definition is_pcm_close (e : event) : bool :=
  match e with Lib (Snd_pcm_close _) _ => true | _ => false end.

Definition is_ctl_close (e : event) : bool :=
  match e with Lib (Snd_ctl_close _) _ => true | _ => false end.

(** How a call under [CHK_ALSA_ERRNO] shows in a trace: once when it
    returned a code that is not negative; twice when the first code was
    negative, and then the text of the second code is logged with the
    macro's message. *)
Definition checked_call (lg : ptr) (msg : string) (kind : event -> bool) (c : call)
    (evs : list event) : Prop :=
  (exists r, calls kind evs = [Lib c r] /\ 0 <= r) \/
  (exists r r',
     calls kind evs = [Lib c r; Lib c r'] /\ r < 0 /\
     In (Log lg LOGGER_ERR (AStr "%s: %s") [AStr msg; AStrerror r']) evs).

(** The stream cannot be closed. *)
Definition close_fail_reply (t : list event) (c : call) : Z :=
  match c with Snd_pcm_close _ => -9 | _ => nominal_reply t c end.

(** * Proof rules *)

Section Rules.

Variable E : Env.

Lemma wp_elim {A} (m : M A) (w : World) (Q : A -> World -> Prop) :
  wp m w Q -> exists a w', m w = Ok a w' /\ Q a w'.
Proof. unfold wp. destruct (m w) as [a w'|]; [eauto | tauto]. Qed.

Lemma wp_bind {A B} (m : M A) (k : A -> M B) w Q :
  wp m w (fun a w' => wp (k a) w' Q) -> wp (bind m k) w Q.
Proof. unfold wp, bind. now destruct (m w). Qed.

Lemma wp_ret {A} (a : A) w (Q : A -> World -> Prop) : Q a w -> wp (ret a) w Q.
Proof. exact id. Qed.

Lemma wp_call_lib c w Q :
  (forall r, r = reply E (trace w) c -> Q r (record (Lib c r) w)) ->
  wp (call_lib E c) w Q.
Proof. intros H. now apply H. Qed.

Lemma wp_logger_log lg lvl fmt args w Q :
  Q tt (record (Log lg lvl fmt args) w) -> wp (logger_log lg lvl fmt args) w Q.
Proof. exact id. Qed.

Lemma wp_alloc b w Q :
  (forall l, mem w !! l = None -> Q l (set_mem (<[l := b]> (mem w)) w)) ->
  wp (alloc b) w Q.
Proof.
  intros H. apply H. apply not_elem_of_dom, is_fresh.
Qed.

Lemma wp_load_renderer l r w Q :
  mem w !! l = Some (BRenderer r) -> Q r w -> wp (load_renderer (Some l)) w Q.
Proof. unfold wp, load_renderer. now intros ->. Qed.

Lemma wp_store_renderer l r r' w Q :
  mem w !! l = Some (BRenderer r) ->
  Q tt (set_mem (<[l := BRenderer r']> (mem w)) w) ->
  wp (store_renderer (Some l) r') w Q.
Proof. unfold wp, store_renderer. now intros ->. Qed.

Lemma wp_free_live l b w Q :
  mem w !! l = Some b -> Q tt (set_mem (delete l (mem w)) w) -> wp (free (Some l)) w Q.
Proof. unfold wp, free. now intros ->. Qed.

Lemma wp_free_null w Q : Q tt w -> wp (free None) w Q.
Proof. exact id. Qed.

Lemma wp_release l w Q : Q tt (set_mem (delete l (mem w)) w) -> wp (release l) w Q.
Proof. exact id. Qed.

Lemma wp_load_long l z w Q :
  mem w !! l = Some (BLong z) -> Q z w -> wp (load_long l) w Q.
Proof. unfold wp, load_long. now intros ->. Qed.

Lemma wp_load_elem_list l x w Q :
  mem w !! l = Some (BElemList x) -> Q x w -> wp (load_elem_list l) w Q.
Proof. unfold wp, load_elem_list. now intros ->. Qed.

Lemma wp_get_mHasCtrlVolume w Q : Q (mHasCtrlVolume w) w -> wp get_mHasCtrlVolume w Q.
Proof. exact id. Qed.

Lemma wp_put_mHasCtrlVolume b w Q :
  Q tt (set_mHasCtrlVolume b w) -> wp (put_mHasCtrlVolume b) w Q.
Proof. exact id. Qed.

Lemma wp_get_trace w Q : Q (trace w) w -> wp get_trace w Q.
Proof. exact id. Qed.

Lemma wp_get_mixer w Q : Q (mixer w) w -> wp get_mixer w Q.
Proof. exact id. Qed.

Lemma wp_put_mixer x w Q : Q tt (set_mixer x w) -> wp (put_mixer x) w Q.
Proof. exact id. Qed.

Lemma wp_peek_null w Q : Q None w -> wp (peek None) w Q.
Proof. exact id. Qed.

Lemma wp_peek_at l o w Q : mem w !! l = o -> Q o w -> wp (peek (Some l)) w Q.
Proof. unfold wp, peek. now intros ->. Qed.

Lemma wp_defined {A} (o : option A) a w (Q : A -> World -> Prop) :
  o = Some a -> Q a w -> wp (defined o) w Q.
Proof. now intros ->. Qed.

Lemma wp_poke l b w Q : Q tt (set_mem (<[l := b]> (mem w)) w) -> wp (poke l b) w Q.
Proof. exact id. Qed.

End Rules.

(** Lookups in a memory built from insertions and deletions. *)
Ltac distinct :=
  first [ assumption | apply not_eq_sym; assumption | congruence ].

Ltac mem_simpl :=
  cbn [mem mHasCtrlVolume mixer trace set_mem set_mHasCtrlVolume set_mixer record];
  repeat first
    [ rewrite lookup_insert_eq
    | rewrite lookup_insert_ne by distinct
    | rewrite lookup_delete_eq
    | rewrite lookup_delete_ne by distinct ].

Ltac mem_lookup := mem_simpl; first [ eassumption | reflexivity ].

(** From [m !! l = None] for a freshly allocated [l]: [l] differs from
    every address written so far. *)
Ltac fresh_facts H :=
  cbn [mem mHasCtrlVolume mixer trace set_mem set_mHasCtrlVolume set_mixer record] in H;
  repeat match type of H with
         | <[_ := _]> _ !! _ = None =>
             let Hne := fresh "Hne" in
             apply lookup_insert_None in H as [H Hne]
         end;
  repeat match goal with
         | H1 : ?a <> ?b, H2 : ?a <> ?b |- _ => clear H2
         end.

(** Arithmetic from the tests the code has taken. *)
Ltac bool_lia :=
  repeat match goal with
         | H : (_ <? _) = true |- _ => apply Z.ltb_lt in H
         | H : (_ <? _) = false |- _ => apply Z.ltb_ge in H
         | H : (_ <=? _) = true |- _ => apply Z.leb_le in H
         | H : (_ <=? _) = false |- _ => apply Z.leb_gt in H
         | H : (_ =? _) = true |- _ => apply Z.eqb_eq in H
         | H : (_ =? _) = false |- _ => apply Z.eqb_neq in H
         | H : negb _ = true |- _ => apply negb_true_iff in H
         | H : negb _ = false |- _ => apply negb_false_iff in H
         | H : _ && _ = true |- _ => apply andb_true_iff in H as [? ?]
         end;
  lia.

Ltac head_of t :=
  lazymatch t with
  | ?f _ => head_of f
  | _ => t
  end.

(** The outcome of a test also settles the opposite comparison. *)
Ltac companions H :=
  lazymatch type of H with
  | (?a <=? ?b) = _ =>
      let H' := fresh "Htest" in
      pose proof (Z.ltb_antisym a b) as H'; rewrite H in H'; cbn [negb] in H'
  | (?a <? ?b) = _ =>
      let H' := fresh "Htest" in
      pose proof (Z.leb_antisym a b) as H'; rewrite H in H'; cbn [negb] in H'
  | _ => idtac
  end.

(** A test is settled by computation, by a fact at hand, or else both
    outcomes are followed. *)
Ltac wp_if c :=
  first
    [ let v := eval vm_compute in c in
      lazymatch v with
      | true => change c with true
      | false => change c with false
      end
    | match goal with H : c = _ |- _ => rewrite H end
    | lazymatch c with
      | negb ?c' => match goal with H : c' = _ |- _ => rewrite H end
      end
    | lazymatch c with
      | negb ?c' => let H := fresh "Htest" in destruct c' eqn:H; companions H
      | _ => let H := fresh "Htest" in destruct c eqn:H; companions H
      end ].

Ltac wp_step_gen keep :=
  lazymatch goal with
  | |- wp (bind _ _) _ _ => apply wp_bind
  | |- wp (ret _) _ _ => apply wp_ret
  | |- wp (call_lib _ _) _ _ =>
      let r := fresh "r" in let Hr := fresh "Hr" in
      apply wp_call_lib; intros r Hr; keep Hr
  | |- wp (logger_log _ _ _ _) _ _ => apply wp_logger_log
  | |- wp (alloc _) _ _ =>
      let l := fresh "l" in let Hl := fresh "Hl" in
      apply wp_alloc; intros l Hl; fresh_facts Hl
  | |- wp (load_renderer (Some _)) _ _ => eapply wp_load_renderer; [mem_lookup|]
  | |- wp (store_renderer (Some _) _) _ _ => eapply wp_store_renderer; [mem_lookup|]
  | |- wp (free None) _ _ => apply wp_free_null
  | |- wp (free (Some _)) _ _ => eapply wp_free_live; [mem_lookup|]
  | |- wp (release _) _ _ => apply wp_release
  | |- wp (load_long _) _ _ => eapply wp_load_long; [mem_lookup|]
  | |- wp (load_elem_list _) _ _ => eapply wp_load_elem_list; [mem_lookup|]
  | |- wp get_mHasCtrlVolume _ _ => apply wp_get_mHasCtrlVolume
  | |- wp (put_mHasCtrlVolume _) _ _ => apply wp_put_mHasCtrlVolume
  | |- wp get_trace _ _ => apply wp_get_trace
  | |- wp get_mixer _ _ => apply wp_get_mixer
  | |- wp (put_mixer _) _ _ => apply wp_put_mixer
  | |- wp (peek None) _ _ => apply wp_peek_null
  | |- wp (peek (Some _)) _ _ => eapply wp_peek_at; [mem_simpl; first [eassumption | reflexivity]|]
  | |- wp (poke _ _) _ _ => apply wp_poke
  | |- wp (defined _) _ _ => eapply wp_defined; [first [eassumption | reflexivity]|]
  | |- wp (if ?c then _ else _) _ _ => wp_if c
  | |- wp (match ?x with _ => _ end) _ _ => destruct x eqn:?
  | |- wp ?m _ _ => let f := head_of m in unfold f
  end; cbv beta iota zeta; cbn [negb];
  cbn [set_mem set_mHasCtrlVolume set_mixer record mem mHasCtrlVolume mixer trace];
  cbn [base config audio_decoder audio_renderer ctl ctl_elem_id logger funcs type
       value_id integer iface numid list_space list_used list_count
       zero_renderer zero_elem_id zero_elem_list
       base_logger with_base with_config with_audio_decoder with_audio_renderer
       with_ctl with_ctl_elem_id with_logger with_funcs with_type].

(** [wp_step] forgets which history produced a return code. *)
Ltac wp_step := wp_step_gen ltac:(fun H => clear H).

Lemma trace_snoc (t0 t : list event) evs e :
  t = t0 ++ evs -> t ++ [e] = t0 ++ (evs ++ [e]).
Proof. intros ->. now rewrite app_assoc. Qed.

Lemma trace_start (t0 : list event) : t0 = t0 ++ [].
Proof. now rewrite app_nil_r. Qed.

(** The final trace is the initial one followed by the events emitted. *)
Ltac trace_eq :=
  cbn [mem mHasCtrlVolume mixer trace set_mem set_mHasCtrlVolume set_mixer record];
  repeat apply trace_snoc; apply trace_start.

Ltac forall_events :=
  cbn [calls List.filter is_fill is_decode is_malloc is_writei is_recover is_convert
       is_elem_write is_error_log];
  repeat (apply Forall_cons_2; [eexists; reflexivity|]); apply Forall_nil_2.

Ltac use_tests :=
  repeat match goal with
         | H : (_ <=? _) = _ |- _ => rewrite ?H; clear H
         | H : (_ <? _) = _ |- _ => rewrite ?H; clear H
         end.

Ltac mem_eq :=
  cbn [mem mHasCtrlVolume mixer set_mem set_mHasCtrlVolume set_mixer record];
  apply map_eq; intros ?;
  rewrite ?lookup_delete, ?lookup_insert;
  repeat case_decide; subst; congruence.

Section Specs.

Variable E : Env.

Lemma render_buffer_spec w h r p ntp data data_len pts :
  mem w !! h = Some (BRenderer r) ->
  audio_renderer r = Some p ->
  mem w !! p = Some (BPcm (Some playback_setup)) ->
  data_len <> 0 ->
  wp (audio_renderer_alsa_render_buffer E (Some h) ntp data data_len pts) w
     (fun _ w' => render_post w r p data data_len w').
Proof.
  intros Hh Hp Hpcm Hlen.
  unfold audio_renderer_alsa_render_buffer.
  destruct (Z.eqb_spec data_len 0); [done|].
  destruct r as [b c d p' cl id]; simpl in Hp; subst p'.
  repeat wp_step.
  all: unfold render_post;
       cbn [mem mHasCtrlVolume mixer set_mem set_mHasCtrlVolume set_mixer record];
       rewrite ?delete_insert_eq, ?delete_id by assumption;
       split; [reflexivity|]; split; [reflexivity|]; split; [reflexivity|].
  all: do 6 eexists; split; [trace_eq|].
  all: cbn [app]; split; [reflexivity|].
  all: split; [|split; [reflexivity|]; split; [reflexivity|]; split; [reflexivity|]].
  all: first [ left; split; [bool_lia|reflexivity]
             | right; split; [bool_lia|]; eexists; split; [reflexivity|assumption]
             | idtac ].
  all: split; intros Hplayed;
       [ first [reflexivity | exfalso; bool_lia]
       | first [ exfalso; bool_lia
               | eexists; split; [reflexivity|]; intros Hrec;
                 first [reflexivity | exfalso; bool_lia] ] ].
Qed.

Lemma set_volume_spec w h r c dev i id volume db :
  mem w !! h = Some (BRenderer r) ->
  ctl r = Some c ->
  mem w !! c = Some (BCtl dev) ->
  ctl_elem_id r = Some i ->
  mem w !! i = Some (BElemId id) ->
  mHasCtrlVolume w = true ->
  scaled_dB (LONG_BITS E) volume = Some db ->
  wp (audio_renderer_alsa_set_volume E (Some h) volume) w
     (fun _ w' => volume_post E w r c id db w').
Proof.
  intros Hh Hc Hctl Hi Hid Hflag Hdb.
  unfold audio_renderer_alsa_set_volume.
  destruct r as [b cf d p c' i']; simpl in Hc, Hi; subst c' i'.
  wp_step. wp_step. rewrite Hflag. cbn [negb].
  repeat wp_step.
  all: unfold volume_post; split; [mem_eq|]; split; [reflexivity|].
  all: do 3 eexists; split; [trace_eq|]; cbn [app]; rewrite <- ?app_assoc; cbn [app].
  all: split; [forall_events|].
  all: split; [reflexivity|].
  all: split; [intros; first [exfalso; bool_lia | reflexivity]|].
  all: split; [intros; first [exfalso; bool_lia | reflexivity]|].
  all: split; [discriminate|].
  all: split; [forall_events|].
  all: cbn [calls List.filter is_elem_write is_convert existsb reply_of failed
                 is_error_log orb].
  all: use_tests.
  all: cbn [orb].
  all: split; [reflexivity|].
  all: first [reflexivity | discriminate | intros; reflexivity].
Qed.
End Specs.

(** * The render path *)

Section Render.

Variable E : Env.

(** C5: a render call with a zero-length buffer returns at once: the world,
    and with it the trace of fill, decode and write attempts, the memory
    and the renderer, is exactly what it was. *)
Theorem render_zero_length_is_noop (renderer ntp : ptr) (data : list Z) (pts : Z)
    (w : World) :
  audio_renderer_alsa_render_buffer E renderer ntp data 0 pts w = Ok tt w.
Proof. reflexivity. Qed.

(** C9: render does not look at [ntp] and [pts]: two calls that differ
    only in them give the same result and the same final world. *)
Theorem render_ignores_ntp_and_pts (renderer ntp1 ntp2 : ptr) (data : list Z)
    (data_len pts1 pts2 : Z) (w : World) :
  audio_renderer_alsa_render_buffer E renderer ntp1 data data_len pts1 w =
  audio_renderer_alsa_render_buffer E renderer ntp2 data data_len pts2 w.
Proof. reflexivity. Qed.

(** C1: on a constructed renderer, a render call with a non-empty buffer
    returns after exactly one [snd_pcm_writei], of 480 frames (the 4 * 480
    bytes of the buffer it allocated, at 2 channels of 16 bits), whatever
    codes [f] and [d] the fill and the decode-frame steps returned. *)
Theorem render_buffer_one_write w h r p ntp data data_len pts :
  mem w !! h = Some (BRenderer r) ->
  audio_renderer r = Some p ->
  mem w !! p = Some (BPcm (Some playback_setup)) ->
  data_len <> 0 ->
  exists w' evs m buf f d played,
    audio_renderer_alsa_render_buffer E (Some h) ntp data data_len pts w = Ok tt w' /\
    trace w' = trace w ++ evs /\
    calls is_fill evs =
      [Lib (AacDecoder_Fill (audio_decoder r) data (UINT_of_int data_len)
              (UINT_of_int data_len)) f] /\
    calls is_malloc evs = [Lib (Malloc (4 * 480)) m] /\
    calls is_decode evs =
      [Lib (AacDecoder_DecodeFrame (audio_decoder r) buf (4 * 480) 0) d] /\
    calls is_writei evs = [Lib (Snd_pcm_writei (Some p) buf 480) played] /\
    480 = 4 * 480 * 8 / frame_bits playback_setup.
Proof.
  intros Hh Hp Hpcm Hlen.
  destruct (wp_elim _ _ _ (render_buffer_spec E w h r p ntp data data_len pts
                             Hh Hp Hpcm Hlen))
    as ([] & w' & Hrun & _ & _ & _ & evs & m & f & d & buf & played & Htr & Hm & _ &
        Hf & Hd & Hw & _).
  exists w', evs, m, buf, f, d, played. repeat split; assumption || reflexivity.
Qed.

(** C4: when the write returns a negative value, exactly one
    [snd_pcm_recover] is issued, for that error code.  If it fails too,
    the last thing the call does is to log the error; the call returns,
    memory, flag and mixer are what they were, and the next render call on
    the handle runs and attempts its write. *)
Theorem render_recovers_once w h r p ntp data data_len pts :
  mem w !! h = Some (BRenderer r) ->
  audio_renderer r = Some p ->
  mem w !! p = Some (BPcm (Some playback_setup)) ->
  data_len <> 0 ->
  exists w' evs buf played,
    audio_renderer_alsa_render_buffer E (Some h) ntp data data_len pts w = Ok tt w' /\
    trace w' = trace w ++ evs /\
    calls is_writei evs = [Lib (Snd_pcm_writei (Some p) buf 480) played] /\
    (0 <= played -> calls is_recover evs = []) /\
    (played < 0 ->
     exists rec,
       calls is_recover evs =
         [Lib (Snd_pcm_recover (Some p) (int_of_long played) 0) rec] /\
       (rec < 0 ->
        last evs =
          Some (Log (base_logger r) LOGGER_ERR (AStrerror (int_of_long rec)) []))) /\
    mem w' = mem w /\ mHasCtrlVolume w' = mHasCtrlVolume w /\ mixer w' = mixer w /\
    forall ntp2 data2 data_len2 pts2,
      data_len2 <> 0 ->
      exists w'' evs2 buf2 played2,
        audio_renderer_alsa_render_buffer E (Some h) ntp2 data2 data_len2 pts2 w' =
          Ok tt w'' /\
        trace w'' = trace w' ++ evs2 /\
        calls is_writei evs2 = [Lib (Snd_pcm_writei (Some p) buf2 480) played2].
Proof.
  intros Hh Hp Hpcm Hlen.
  destruct (wp_elim _ _ _ (render_buffer_spec E w h r p ntp data data_len pts
                             Hh Hp Hpcm Hlen))
    as ([] & w' & Hrun & Hmem & Hflag & Hmix & evs & m & f & d & buf & played & Htr &
        _ & _ & _ & _ & Hw & Hok & Hrec).
  exists w', evs, buf, played.
  repeat (split; [assumption|]).
  intros ntp2 data2 data_len2 pts2 Hlen2.
  rewrite <- Hmem in Hh, Hpcm.
  destruct (wp_elim _ _ _ (render_buffer_spec E w' h r p ntp2 data2 data_len2 pts2
                             Hh Hp Hpcm Hlen2))
    as ([] & w'' & Hrun2 & _ & _ & _ & evs2 & m2 & f2 & d2 & buf2 & played2 & Htr2 &
        _ & _ & _ & _ & Hw2 & _).
  exists w'', evs2, buf2, played2. repeat split; assumption.
Qed.

End Render.

Lemma ready_world_renderer : mem ready_world !! 1%positive = Some (BRenderer ready_renderer).
Proof. vm_compute. reflexivity. Qed.

Lemma ready_world_pcm : mem ready_world !! 3%positive = Some (BPcm (Some playback_setup)).
Proof. vm_compute. reflexivity. Qed.

(** The renderer built on [card], with a decoder that rejects its input. *)
Lemma render_buffer_one_write_witness :
  exists w' evs m buf f d played,
    audio_renderer_alsa_render_buffer (env_of decode_error_reply card)
      (Some 1%positive) None [1; 2; 3] 3 0 ready_world = Ok tt w' /\
    trace w' = trace ready_world ++ evs /\
    calls is_fill evs =
      [Lib (AacDecoder_Fill (audio_decoder ready_renderer) [1; 2; 3] (UINT_of_int 3)
              (UINT_of_int 3)) f] /\
    calls is_malloc evs = [Lib (Malloc (4 * 480)) m] /\
    calls is_decode evs =
      [Lib (AacDecoder_DecodeFrame (audio_decoder ready_renderer) buf (4 * 480) 0) d] /\
    calls is_writei evs = [Lib (Snd_pcm_writei (Some 3%positive) buf 480) played] /\
    480 = 4 * 480 * 8 / frame_bits playback_setup.
Proof.
  apply (render_buffer_one_write (env_of decode_error_reply card) ready_world
           1%positive ready_renderer 3%positive None [1; 2; 3] 3 0).
  - exact ready_world_renderer.
  - reflexivity.
  - exact ready_world_pcm.
  - lia.
Defined.

(** The same call, run: both decoder steps fail and are logged, and the
    write of 480 frames is still issued. *)
Example render_after_decode_errors :
  exists w',
    audio_renderer_alsa_render_buffer (env_of decode_error_reply card)
      (Some 1%positive) None [1; 2; 3] 3 0 ready_world = Ok tt w' /\
    drop (length (trace ready_world)) (trace w') =
      [ Log sample_logger LOGGER_DEBUG (AStr "Got AAC data of %d bytes") [AInt 3];
        Lib (AacDecoder_Fill (Some 2%positive) [1; 2; 3] 3 3) 0x2003;
        Log sample_logger LOGGER_ERR (AStr "aacDecoder_Fill error : %x") [AInt 0x2003];
        Lib (Malloc 1920) 1;
        Lib (AacDecoder_DecodeFrame (Some 2%positive) (Some 6%positive) 1920 0) 0x4002;
        Log sample_logger LOGGER_ERR (AStr "aacDecoder_DecodeFrame error : 0x%x")
          [AInt 0x4002];
        Lib (Snd_pcm_writei (Some 3%positive) (Some 6%positive) 480) 480 ].
Proof. eexists. split; vm_compute; reflexivity. Qed.

Lemma render_recovers_once_witness :
  exists w' evs buf played,
    audio_renderer_alsa_render_buffer (env_of underrun_reply card)
      (Some 1%positive) None [1; 2; 3] 3 0 ready_world = Ok tt w' /\
    trace w' = trace ready_world ++ evs /\
    calls is_writei evs = [Lib (Snd_pcm_writei (Some 3%positive) buf 480) played] /\
    (0 <= played -> calls is_recover evs = []) /\
    (played < 0 ->
     exists rec,
       calls is_recover evs =
         [Lib (Snd_pcm_recover (Some 3%positive) (int_of_long played) 0) rec] /\
       (rec < 0 ->
        last evs =
          Some (Log (base_logger ready_renderer) LOGGER_ERR
                  (AStrerror (int_of_long rec)) []))) /\
    mem w' = mem ready_world /\ mHasCtrlVolume w' = mHasCtrlVolume ready_world /\
    mixer w' = mixer ready_world /\
    forall ntp2 data2 data_len2 pts2,
      data_len2 <> 0 ->
      exists w'' evs2 buf2 played2,
        audio_renderer_alsa_render_buffer (env_of underrun_reply card)
          (Some 1%positive) ntp2 data2 data_len2 pts2 w' = Ok tt w'' /\
        trace w'' = trace w' ++ evs2 /\
        calls is_writei evs2 = [Lib (Snd_pcm_writei (Some 3%positive) buf2 480) played2].
Proof.
  apply (render_recovers_once (env_of underrun_reply card) ready_world
           1%positive ready_renderer 3%positive None [1; 2; 3] 3 0).
  - exact ready_world_renderer.
  - reflexivity.
  - exact ready_world_pcm.
  - lia.
Defined.

(** The underrun, run: one write, one recovery for -32, the error line. *)
Example render_underrun_run :
  exists w',
    audio_renderer_alsa_render_buffer (env_of underrun_reply card)
      (Some 1%positive) None [1; 2; 3] 3 0 ready_world = Ok tt w' /\
    drop (length (trace ready_world)) (trace w') =
      [ Log sample_logger LOGGER_DEBUG (AStr "Got AAC data of %d bytes") [AInt 3];
        Lib (AacDecoder_Fill (Some 2%positive) [1; 2; 3] 3 3) 0;
        Lib (Malloc 1920) 1;
        Lib (AacDecoder_DecodeFrame (Some 2%positive) (Some 6%positive) 1920 0) 0;
        Lib (Snd_pcm_writei (Some 3%positive) (Some 6%positive) 480) (-32);
        Lib (Snd_pcm_recover (Some 3%positive) (-32) 0) (-32);
        Log sample_logger LOGGER_ERR (AStrerror (-32)) [] ] /\
    mem w' = mem ready_world.
Proof.
  eexists. split; [vm_compute; reflexivity|].
  split; vm_compute; reflexivity.
Qed.

(** * The volume path *)

Lemma shiftl_iter_xO (q d : positive) :
  Z.shiftl (Z.pos (Pos.iter xO q d)) (Z.neg d) = Z.pos q.
Proof.
  change (Pos.iter xO q d) with (Zpower.shift_pos d q).
  rewrite Zpower.shift_pos_correct.
  change (Zpower_pos 2 d) with (2 ^ Z.pos d).
  change (Z.neg d) with (- Z.pos d).
  rewrite Z.shiftl_opp_r, Z.shiftr_div_pow2 by lia.
  rewrite Z.mul_comm. apply Z.div_mul.
  apply Z.pow_nonzero; lia.
Qed.

Lemma Ztrunc_truncf (v : float) : Ztrunc_float (truncf v) = Ztrunc_float v.
Proof.
  destruct v as [s|s| |s m e]; try reflexivity.
  unfold truncf. destruct (0 <=? e) eqn:He; [reflexivity|].
  cbn [Ztrunc_float].
  destruct (Z.shiftl (Z.pos m) e) as [|q|q] eqn:Hq.
  - now destruct s.
  - unfold shl_align.
    set (x := fexp 24 128 (Z.pos (digits2_pos q))).
    destruct (x - 0) as [|d|d] eqn:Hd; cbn [Ztrunc_float].
    + now rewrite Z.shiftl_0_r.
    + now rewrite Z.shiftl_0_r.
    + replace x with (Z.neg d) by lia.
      now rewrite shiftl_iter_xO.
  - pose proof (proj2 (Z.shiftl_nonneg (Z.pos m) e)) as H.
    rewrite Hq in H. lia.
Qed.

Lemma digits2_pos_log2 (p : positive) : Z.pos (digits2_pos p) = Z.log2 (Z.pos p) + 1.
Proof.
  assert (Hsize : forall q, digits2_pos q = Pos.size q).
  { induction q as [q IH|q IH|]; cbn [digits2_pos Pos.size]; now rewrite ?IH. }
  destruct p as [p|p|]; cbn [digits2_pos Z.log2]; rewrite ?Hsize; lia.
Qed.

Lemma digits2_pos_iter_xO (q d : positive) :
  digits2_pos (Pos.iter xO q d) = (digits2_pos q + d)%positive.
Proof.
  induction d as [|d IH] using Pos.peano_ind.
  - cbn. lia.
  - rewrite Pos.iter_succ. cbn [digits2_pos]. rewrite IH. lia.
Qed.

Lemma fexp_binary32 (x : Z) : fexp 24 128 x = Z.max (x - 24) (-149).
Proof. reflexivity. Qed.

(** [truncf] takes binary32 values to binary32 values. *)
Lemma truncf_valid (v : float) : float_valid v = true -> float_valid (truncf v) = true.
Proof.
  destruct v as [s|s| |s m e]; try (intros; reflexivity).
  unfold float_valid, truncf. intros Hv.
  destruct (0 <=? e) eqn:He; [exact Hv|]. apply Z.leb_gt in He.
  destruct (Z.shiftl (Z.pos m) e) as [|q|q] eqn:Hq; try reflexivity.
  cbn [valid_binary] in Hv. unfold bounded, canonical_mantissa in Hv.
  apply andb_true_iff in Hv as [Hc _]. apply Z.eqb_eq in Hc.
  rewrite fexp_binary32 in Hc.
  assert (Hle : Z.pos q <= Z.pos m).
  { rewrite <- Hq. replace e with (- - e) by lia.
    rewrite Z.shiftl_opp_r, Z.shiftr_div_pow2 by lia.
    apply Z.div_le_upper_bound; [apply Z.pow_pos_nonneg; lia|].
    assert (0 < 2 ^ (- e)) by (apply Z.pow_pos_nonneg; lia). nia. }
  assert (Hdq : Z.pos (digits2_pos q) <= 24).
  { rewrite digits2_pos_log2 in *.
    pose proof (Z.log2_le_mono _ _ Hle). lia. }
  unfold shl_align. rewrite fexp_binary32.
  destruct (Z.max (Z.pos (digits2_pos q) - 24) (-149) - 0) as [|d|d] eqn:Hd;
    cbn [valid_binary]; unfold bounded, canonical_mantissa;
    rewrite ?digits2_pos_iter_xO, fexp_binary32;
    apply andb_true_iff; split; try apply Z.eqb_eq; try apply Z.leb_le; lia.
Qed.

Lemma scaled_dB_truncf (bits : Z) (v : float) :
  scaled_dB bits (truncf v) = scaled_dB bits v.
Proof. unfold scaled_dB, long_of_float. now rewrite Ztrunc_truncf. Qed.

Lemma scaled_dB_spec (bits : Z) (v : float) (db : Z) :
  scaled_dB bits v = Some db ->
  exists z, Ztrunc_float v = Some z /\ db = z * 200.
Proof.
  unfold scaled_dB, long_of_float, long_mul.
  destruct (Ztrunc_float v) as [z|]; [|discriminate].
  destruct (in_long bits z); [|discriminate].
  destruct (in_long bits (z * 200)); [|discriminate].
  intros [= <-]. eauto.
Qed.

(** [truncf] keeps a binary32 value a binary32 value. *)
Example truncf_minus_30_5 :
  truncf minus_30_5 = minus_30 /\ float_valid minus_30_5 = true /\
  float_valid minus_30 = true /\ scaled_dB 32 minus_30_5 = Some (-6000).
Proof. repeat split. Qed.

(** The two literals are what the C compiler makes of them: 48 bytes
    ending in a line feed, and four tabs between five fields. *)
Example format_literals :
  String.length short_write_format = 48%nat /\
  String.get 47 short_write_format = Some (Ascii.ascii_of_nat 10) /\
  String.length stream_info_format = 82%nat /\
  String.get 27 stream_info_format = Some (Ascii.ascii_of_nat 9).
Proof. repeat split. Qed.

(** C10: the dB argument is cut to its integral part before it is
    multiplied by 200.  With volume control enabled, on a renderer whose
    control handle and element are live, and for a value [v] whose scaled
    product [db] is defined: [v] has an integral part [z], [truncf v] has
    the same one, and [db = z * 200]; a call with [v] and a call with
    [truncf v] both return, and leave the same world.  In it every
    conversion submitted is of [z * 200] for the matched element, at
    least one element write is issued, and every write carries the one raw
    value that the conversion gave at positions 0 and 1 (this is
    [volume_post]).  Whatever the handle and the world, also when the call
    faults or volume control is disabled, the two calls are the same
    computation. *)
Theorem set_volume_truncates (E : Env) w h r c dev i id (v : float) (db : Z) :
  mem w !! h = Some (BRenderer r) ->
  ctl r = Some c ->
  mem w !! c = Some (BCtl dev) ->
  ctl_elem_id r = Some i ->
  mem w !! i = Some (BElemId id) ->
  mHasCtrlVolume w = true ->
  scaled_dB (LONG_BITS E) v = Some db ->
  (exists z w',
     Ztrunc_float v = Some z /\ Ztrunc_float (truncf v) = Some z /\ db = z * 200 /\
     audio_renderer_alsa_set_volume E (Some h) v w = Ok tt w' /\
     audio_renderer_alsa_set_volume E (Some h) (truncf v) w = Ok tt w' /\
     volume_post E w r c id (z * 200) w') /\
  (forall renderer w0,
     audio_renderer_alsa_set_volume E renderer (truncf v) w0 =
       audio_renderer_alsa_set_volume E renderer v w0).
Proof.
  intros Hh Hc Hctl Hi Hid Hflag Hdb.
  assert (Hsame : forall renderer w0,
             audio_renderer_alsa_set_volume E renderer (truncf v) w0 =
               audio_renderer_alsa_set_volume E renderer v w0).
  { intros renderer w0. unfold audio_renderer_alsa_set_volume.
    now rewrite scaled_dB_truncf. }
  split; [|exact Hsame].
  destruct (scaled_dB_spec _ _ _ Hdb) as (z & Hz & ->).
  destruct (wp_elim _ _ _
              (set_volume_spec E w h r c dev i id v (z * 200) Hh Hc Hctl Hi Hid Hflag Hdb))
    as ([] & w' & Hrun & Hpost).
  exists z, w'.
  split; [exact Hz|]. split; [now rewrite Ztrunc_truncf|]. split; [reflexivity|].
  split; [exact Hrun|]. split; [now rewrite Hsame|]. exact Hpost.
Qed.

Lemma set_volume_truncates_witness :
  (exists z w',
     Ztrunc_float minus_30_5 = Some z /\ Ztrunc_float (truncf minus_30_5) = Some z /\
     -6000 = z * 200 /\
     audio_renderer_alsa_set_volume nominal_env (Some 1%positive) minus_30_5 ready_world
       = Ok tt w' /\
     audio_renderer_alsa_set_volume nominal_env (Some 1%positive) (truncf minus_30_5)
       ready_world = Ok tt w' /\
     volume_post nominal_env ready_world ready_renderer 4%positive ready_elem_id
       (z * 200) w') /\
  (forall renderer w0,
     audio_renderer_alsa_set_volume nominal_env renderer (truncf minus_30_5) w0 =
       audio_renderer_alsa_set_volume nominal_env renderer minus_30_5 w0).
Proof.
  apply (set_volume_truncates nominal_env ready_world 1%positive ready_renderer
           4%positive "default" 5%positive ready_elem_id minus_30_5 (-6000)).
  - vm_compute. reflexivity.
  - reflexivity.
  - vm_compute. reflexivity.
  - reflexivity.
  - vm_compute. reflexivity.
  - vm_compute. reflexivity.
  - vm_compute. reflexivity.
Defined.

(** C7: with volume control enabled, on a renderer whose control handle
    and element are live, and for a dB value whose scaled product
    [db = (long)volume * 200] is defined, [set_volume] returns (it never
    faults).  Every conversion it submits is of [db] for the matched
    element; every element write carries one value [raw] at positions 0
    and 1, and at least one write is issued; [raw] is the device's
    [dB_to_raw] of [db] when the last conversion succeeded; the mixer
    holds those integers if a write succeeded and is untouched otherwise;
    and if any call failed an error line was logged. *)
Theorem set_volume_both_channels (E : Env) w h r c dev i id volume db :
  mem w !! h = Some (BRenderer r) ->
  ctl r = Some c ->
  mem w !! c = Some (BCtl dev) ->
  ctl_elem_id r = Some i ->
  mem w !! i = Some (BElemId id) ->
  mHasCtrlVolume w = true ->
  scaled_dB (LONG_BITS E) volume = Some db ->
  exists w' evs raw rc z,
    audio_renderer_alsa_set_volume E (Some h) volume w = Ok tt w' /\
    trace w' = trace w ++ evs /\
    Ztrunc_float volume = Some z /\ db = z * 200 /\
    Forall (fun e => exists x, e = Lib (Snd_ctl_convert_from_dB (Some c) (Some id) db 0) x)
      (calls is_convert evs) /\
    last (calls is_convert evs) =
      Some (Lib (Snd_ctl_convert_from_dB (Some c) (Some id) db 0) rc) /\
    (0 <= rc -> raw = dB_to_raw E (trace w ++ calls is_convert evs) (Some id) db) /\
    calls is_elem_write evs <> [] /\
    Forall (fun e => exists x,
              e = Lib (Snd_ctl_elem_write (Some c) (Some (both_channels id raw))) x)
      (calls is_elem_write evs) /\
    integer (both_channels id raw) !! 0%nat = Some raw /\
    integer (both_channels id raw) !! 1%nat = Some raw /\
    mixer w' =
      (if existsb (fun e => 0 <=? reply_of e) (calls is_elem_write evs)
       then <[numid id := integer (both_channels id raw)]> (mixer w)
       else mixer w) /\
    (existsb failed evs = true -> existsb is_error_log evs = true).
Proof.
  intros Hh Hc Hctl Hi Hid Hflag Hdb.
  destruct (wp_elim _ _ _ (set_volume_spec E w h r c dev i id volume db
                             Hh Hc Hctl Hi Hid Hflag Hdb))
    as ([] & w' & Hrun & _ & _ & evs & raw & rc & Htr & Hconv & Hlast & Hraw & _ &
        Hne & Hwr & Hmix & Hlog).
  destruct (scaled_dB_spec _ _ _ Hdb) as (z & Hz & Hdbz).
  exists w', evs, raw, rc, z.
  repeat (split; [assumption || reflexivity|]). assumption.
Qed.

Lemma set_volume_both_channels_witness :
  exists w' evs raw rc z,
    audio_renderer_alsa_set_volume nominal_env (Some 1%positive) minus_30_5 ready_world
      = Ok tt w' /\
    trace w' = trace ready_world ++ evs /\
    Ztrunc_float minus_30_5 = Some z /\ -6000 = z * 200 /\
    Forall (fun e => exists x,
              e = Lib (Snd_ctl_convert_from_dB (Some 4%positive) (Some ready_elem_id)
                         (-6000) 0) x)
      (calls is_convert evs) /\
    last (calls is_convert evs) =
      Some (Lib (Snd_ctl_convert_from_dB (Some 4%positive) (Some ready_elem_id)
                   (-6000) 0) rc) /\
    (0 <= rc ->
     raw = dB_to_raw nominal_env (trace ready_world ++ calls is_convert evs)
             (Some ready_elem_id) (-6000)) /\
    calls is_elem_write evs <> [] /\
    Forall (fun e => exists x,
              e = Lib (Snd_ctl_elem_write (Some 4%positive)
                         (Some (both_channels ready_elem_id raw))) x)
      (calls is_elem_write evs) /\
    integer (both_channels ready_elem_id raw) !! 0%nat = Some raw /\
    integer (both_channels ready_elem_id raw) !! 1%nat = Some raw /\
    mixer w' =
      (if existsb (fun e => 0 <=? reply_of e) (calls is_elem_write evs)
       then <[numid ready_elem_id := integer (both_channels ready_elem_id raw)]>
              (mixer ready_world)
       else mixer ready_world) /\
    (existsb failed evs = true -> existsb is_error_log evs = true).
Proof.
  apply (set_volume_both_channels nominal_env ready_world 1%positive ready_renderer
           4%positive "default" 5%positive ready_elem_id minus_30_5 (-6000)).
  - exact ready_world_renderer.
  - reflexivity.
  - vm_compute. reflexivity.
  - reflexivity.
  - vm_compute. reflexivity.
  - vm_compute. reflexivity.
  - vm_compute. reflexivity.
Defined.

(** On the sample card -30.5 dB becomes -6000, the card maps it to 40 and
    the element reads 40 on both channels afterwards. *)
Example set_volume_run :
  exists w',
    audio_renderer_alsa_set_volume nominal_env (Some 1%positive) minus_30_5 ready_world
      = Ok tt w' /\
    drop (length (trace ready_world)) (trace w') =
      [ Lib (Snd_ctl_convert_from_dB (Some 4%positive) (Some ready_elem_id) (-6000) 0) 0;
        Lib (Snd_ctl_elem_write (Some 4%positive) (Some (both_channels ready_elem_id 40)))
          0 ] /\
    take 2 <$> mixer w' !! 2 = Some [40; 40].
Proof.
  eexists. split; [vm_compute; reflexivity|].
  split; vm_compute; reflexivity.
Qed.

(** When the mixer refuses both calls each is issued twice (the macro),
    each failure is logged, the call still returns, and the value written
    is the indeterminate content of [raw]. *)
Example set_volume_errors_run :
  exists w',
    audio_renderer_alsa_set_volume (env_of mixer_error_reply card) (Some 1%positive)
      minus_30_5 ready_world = Ok tt w' /\
    drop (length (trace ready_world)) (trace w') =
      [ Lib (Snd_ctl_convert_from_dB (Some 4%positive) (Some ready_elem_id) (-6000) 0)
          (-22);
        Lib (Snd_ctl_convert_from_dB (Some 4%positive) (Some ready_elem_id) (-6000) 0)
          (-22);
        Log sample_logger LOGGER_ERR (AStr "%s: %s") [AStr "Convert"; AStrerror (-22)];
        Lib (Snd_ctl_elem_write (Some 4%positive) (Some (both_channels ready_elem_id 7)))
          (-1);
        Lib (Snd_ctl_elem_write (Some 4%positive) (Some (both_channels ready_elem_id 7)))
          (-1);
        Log sample_logger LOGGER_ERR (AStr "%s: %s") [AStr "Set volume"; AStrerror (-1)] ] /\
    mixer w' = mixer ready_world /\ mem w' = mem ready_world.
Proof.
  eexists. split; [vm_compute; reflexivity|].
  split; [vm_compute; reflexivity|].
  split; vm_compute; reflexivity.
Qed.

(** * Construction *)

Lemma reply_differs r k : r <> k -> (r =? k) = false.
Proof. apply Z.eqb_neq. Qed.

Lemma reply_equals r k : r = k -> (r =? k) = true.
Proof. apply Z.eqb_eq. Qed.

Lemma reply_nonneg r : 0 <= r -> (0 <=? r) = true /\ (r <? 0) = false.
Proof. intros H. split; [now apply Z.leb_le | now apply Z.ltb_ge]. Qed.

Lemma reply_neg r : r < 0 -> (0 <=? r) = false /\ (r <? 0) = true.
Proof. intros H. split; [now apply Z.leb_gt | now apply Z.ltb_lt]. Qed.

(** What the environment promises about the return code just received,
    in the form the tests of the code use. *)
Ltac use_env Hr :=
  try match goal with
      | H : answers ?E ?g |- _ =>
          match type of Hr with
          | ?r = reply E ?t ?c =>
              let H' := fresh "Hreply" in
              pose proof (H t c) as H';
              cbv beta iota delta [g pcm_phase_succeeds decoder_phase_succeeds] in H';
              rewrite <- Hr in H';
              first [ apply reply_differs in H'
                    | apply reply_equals in H'
                    | apply reply_nonneg in H' as [H' ?]
                    | apply reply_neg in H' as [H' ?]
                    | clear H' ]
          end
      end;
  clear Hr.

Ltac wp_step_env := wp_step_gen ltac:(fun H => use_env H).

Section Init.
Variable E : Env.

(** The unwinding that is there: a failing decoder open, and a failing
    stream open, leave memory exactly as it was before the call. *)
Lemma init_decoder_open_failure lg vr cfg w :
  answers E decoder_open_fails ->
  wp (audio_renderer_alsa_init E lg vr cfg) w (fun a w' => a = None /\ mem w' = mem w).
Proof.
  intros Henv. unfold audio_renderer_alsa_init.
  repeat wp_step_env.
  split; [reflexivity|]. mem_eq.
Qed.

Lemma init_pcm_open_failure lg vr cfg w :
  answers E pcm_open_fails ->
  wp (audio_renderer_alsa_init E lg vr (Some cfg)) w
     (fun a w' => a = None /\ mem w' = mem w).
Proof.
  intros Henv. unfold audio_renderer_alsa_init.
  repeat wp_step_env.
  split; [reflexivity|]. mem_eq.
Qed.

(** The unwinding that is missing: when the raw configuration is rejected
    the decoder just opened stays open, and when the parameters are
    rejected the stream just opened stays open. *)
Lemma init_config_raw_failure_leaks lg vr cfg w :
  answers E config_raw_fails ->
  wp (audio_renderer_alsa_init E lg vr cfg) w
     (fun a w' => a = None /\
                  exists d, mem w !! d = None /\ mem w' !! d = Some (BDecoder false)).
Proof.
  intros Henv. unfold audio_renderer_alsa_init.
  repeat wp_step_env.
  split; [reflexivity|]. exists l0. split; [assumption|]. mem_lookup.
Qed.

Lemma init_set_params_failure_leaks lg vr cfg w :
  answers E set_params_fails ->
  wp (audio_renderer_alsa_init E lg vr (Some cfg)) w
     (fun a w' => a = None /\
                  exists p, mem w !! p = None /\ mem w' !! p = Some (BPcm None)).
Proof.
  intros Henv. unfold audio_renderer_alsa_init.
  repeat wp_step_env.
  split; [reflexivity|]. exists l1. split; [assumption|]. mem_lookup.
Qed.

Lemma init_ctl_open_failure_spec lg vr cfg w :
  answers E ctl_open_fails ->
  wp (audio_renderer_alsa_init E lg vr (Some cfg)) w
     (fun a w' =>
        exists h r' d p,
          a = Some h /\ mem w !! h = None /\
          mem w' !! h = Some (BRenderer r') /\
          base_logger r' = lg /\ ctl r' = None /\
          audio_decoder r' = Some d /\ mem w' !! d = Some (BDecoder true) /\
          audio_renderer r' = Some p /\ mem w' !! p = Some (BPcm (Some playback_setup)) /\
          exists evs e,
            trace w' = trace w ++ evs /\ e < 0 /\
            In (Log lg LOGGER_ERR (AStr "%s: %s") [AStr "Ctrl open"; AStrerror e]) evs).
Proof.
  intros Henv.
  unfold audio_renderer_alsa_init.
  repeat wp_step_env.
  all: exists l; eexists; exists l0, l1.
  all: split; [reflexivity|]; split; [assumption|].
  all: split; [mem_lookup|].
  all: split; [reflexivity|]; split; [reflexivity|]; split; [reflexivity|].
  all: split; [mem_lookup|]; split; [reflexivity|]; split; [mem_lookup|].
  all: do 2 eexists; split; [trace_eq|]; cbn [app].
  all: split; [|repeat first [left; reflexivity | right]]; bool_lia.
Qed.

End Init.

(** The sentence of the specification, [ctl_open_failure_is_fatal], does
    not hold of the code: on the sample card with a control surface that
    cannot be opened, create returns handle 1. *)
Lemma ctl_open_failure_is_not_fatal : ~ ctl_open_failure_is_fatal.
Proof.
  intros H.
  destruct (H (env_of ctl_open_fail_reply card) sample_logger None sample_config
              empty_world) as (w' & Hrun & _).
  - intros t name mode. simpl. lia.
  - vm_compute in Hrun. discriminate Hrun.
Qed.

(** C6 fails on the code: the error path is missing.  On the sample card
    with a control surface that cannot be opened ([snd_ctl_open] returns
    -2), the failed open is logged (and, through the macro, issued twice)
    and the code goes on where the two failures before it return an error
    code: it allocates the element id, passes the NULL control handle to
    [snd_ctl_elem_list] twice, leaves [mHasCtrlVolume] set, and create
    returns handle 1, whose control handle is NULL; decoder and stream
    stay open and nothing is released.  A [set_volume] on that handle then
    passes the NULL control handle to [snd_ctl_convert_from_dB] and to
    [snd_ctl_elem_write], with the value [raw] that was never
    initialised. *)
Theorem ctl_open_failure_goes_on_with_null_handle :
  exists w' r' w'' raw,
    audio_renderer_alsa_init (env_of ctl_open_fail_reply card) sample_logger None
      sample_config empty_world = Ok (Some 1%positive) w' /\
    mem w' !! 1%positive = Some (BRenderer r') /\
    ctl r' = None /\
    mHasCtrlVolume w' = true /\
    open_handles w' = [(3%positive, BPcm (Some playback_setup)); (2%positive, BDecoder true)] /\
    drop 7 (trace w') =
      [ Lib (Snd_ctl_open "default" 0) (-2);
        Lib (Snd_ctl_open "default" 0) (-2);
        Log sample_logger LOGGER_ERR (AStr "%s: %s") [AStr "Ctrl open"; AStrerror (-2)];
        Lib Snd_ctl_elem_id_malloc 0;
        Lib (Snd_ctl_elem_list None 0) 0;
        Lib (Snd_ctl_elem_list_alloc_space 0) 0;
        Lib (Snd_ctl_elem_list None 0) 0 ] /\
    audio_renderer_alsa_set_volume (env_of ctl_open_fail_reply card) (Some 1%positive)
      minus_30 w' = Ok tt w'' /\
    drop (length (trace w')) (trace w'') =
      [ Lib (Snd_ctl_convert_from_dB None
               (Some {| iface := SND_CTL_ELEM_IFACE_MIXER; numid := 0 |}) (-6000) 0) 0;
        Lib (Snd_ctl_elem_write None
               (Some (both_channels {| iface := SND_CTL_ELEM_IFACE_MIXER; numid := 0 |}
                        raw))) 0 ].
Proof.
  do 3 eexists. exists 7.
  split; [vm_compute; reflexivity|].
  split; [vm_compute; reflexivity|].
  split; [reflexivity|].
  split; [vm_compute; reflexivity|].
  split; [vm_compute; reflexivity|].
  split; [vm_compute; reflexivity|].
  split; [vm_compute; reflexivity|].
  vm_compute; reflexivity.
Qed.

(** C2 fails on the code in two of its four cases.  On the sample card,
    when [snd_pcm_set_params] is refused create returns NULL and the
    stream opened by [snd_pcm_open] is still open; when
    [aacDecoder_ConfigRaw] is refused create returns NULL and the decoder
    opened by [aacDecoder_Open] is still open. *)
Theorem init_failure_leaves_handles_open :
  (exists w',
     audio_renderer_alsa_init (env_of set_params_fail_reply card) sample_logger None
       sample_config empty_world = Ok None w' /\
     open_handles w' = [(3%positive, BPcm None)]) /\
  (exists w',
     audio_renderer_alsa_init (env_of config_raw_fail_reply card) sample_logger None
       sample_config empty_world = Ok None w' /\
     open_handles w' = [(2%positive, BDecoder false)]).
Proof.
  split; eexists; (split; [vm_compute; reflexivity|]); vm_compute; reflexivity.
Qed.

(** * Volume capability *)

(** With the flag cleared [set_volume] returns at once, world untouched. *)
Lemma set_volume_disabled E renderer volume w :
  mHasCtrlVolume w = false ->
  audio_renderer_alsa_set_volume E renderer volume w = Ok tt w.
Proof.
  intros H. unfold audio_renderer_alsa_set_volume, bind, get_mHasCtrlVolume.
  now rewrite H.
Qed.

(** The search over a non-empty listing without a match ends by logging
    and clearing the flag. *)
Lemma find_playback_volume_no_match h r list l n w :
  mem w !! h = Some (BRenderer r) ->
  mem w !! list = Some (BElemList l) ->
  (forall i, (i <= n)%nat ->
             exists e, list_used l !! i = Some e /\ no_volume_element e) ->
  find_playback_volume (Some h) list (S n) w =
    Ok tt (set_mHasCtrlVolume false
             (record (Log (base_logger r) LOGGER_INFO
                        (AStr "Cannot control Volume for selected device") []) w)).
Proof.
  intros Hh Hl. induction n as [|n IH]; intros Hall.
  - destruct (Hall O (Nat.le_refl _)) as (e & He & Hno).
    cbn [find_playback_volume].
    unfold snd_ctl_elem_list_get_name, load_elem_list, cstring, field, load_renderer,
      logger_log, put_mHasCtrlVolume, when, bind, ret.
    rewrite Hl, He. cbn [fmap option_fmap option_map]. rewrite Hno.
    cbn [Nat.eqb]. now rewrite Hh.
  - destruct (Hall (S n) (Nat.le_refl _)) as (e & He & Hno).
    change (find_playback_volume (Some h) list (S (S n)) w)
      with (bind (snd_ctl_elem_list_get_name list (S n))
              (fun name =>
                 bind (cstring name)
                   (fun name =>
                      if strstr name "Playback Volume"
                      then bind (field ctl_elem_id (Some h))
                             (fun id =>
                                bind (snd_ctl_elem_list_get_numid list (S n))
                                  (fun x => snd_ctl_elem_id_set_numid id x))
                      else bind (when (Nat.eqb (S (S n)) 1)
                                   (bind (field base_logger (Some h))
                                      (fun lg =>
                                         bind (logger_log lg LOGGER_INFO
                                                 (AStr "Cannot control Volume for selected device") [])
                                           (fun _ => put_mHasCtrlVolume false))))
                             (fun _ => find_playback_volume (Some h) list (S n))))
              w).
    unfold snd_ctl_elem_list_get_name, load_elem_list, cstring, when, bind at 1 2 3 4, ret.
    rewrite Hl, He. cbn [fmap option_fmap option_map]. rewrite Hno.
    cbn [Nat.eqb]. apply IH. intros i Hi. apply Hall. lia.
Qed.

(** On an empty listing the search does nothing: the flag keeps the value
    [true] it was given just before the loop. *)
Lemma find_playback_volume_empty renderer list w :
  find_playback_volume renderer list O w = Ok tt w.
Proof. reflexivity. Qed.

(** C3 holds on a card with elements and fails on the empty listing.  On
    the card without a volume element construction clears the flag and
    [set_volume] leaves the world as it is.  On the card with no element
    at all the flag stays set, and [set_volume] converts, and writes
    element 0 of the mixer. *)
Theorem empty_listing_leaves_volume_enabled :
  (exists h w1,
     audio_renderer_alsa_init (env_of nominal_reply card_without_volume) sample_logger
       None sample_config empty_world = Ok (Some h) w1 /\
     mHasCtrlVolume w1 = false /\
     audio_renderer_alsa_set_volume (env_of nominal_reply card_without_volume) (Some h)
       minus_30 w1 = Ok tt w1) /\
  (exists h w1 w2,
     audio_renderer_alsa_init (env_of nominal_reply []) sample_logger None sample_config
       empty_world = Ok (Some h) w1 /\
     mHasCtrlVolume w1 = true /\
     audio_renderer_alsa_set_volume (env_of nominal_reply []) (Some h) minus_30 w1
       = Ok tt w2 /\
     calls is_elem_write (drop (length (trace w1)) (trace w2)) =
       [ Lib (Snd_ctl_elem_write (Some 4%positive)
                (Some (both_channels
                         {| iface := SND_CTL_ELEM_IFACE_MIXER; numid := 0 |} 40))) 0 ] /\
     mixer w1 !! 0 = None /\
     take 2 <$> mixer w2 !! 0 = Some [40; 40]).
Proof.
  split.
  - do 2 eexists. split; [vm_compute; reflexivity|].
    split; vm_compute; reflexivity.
  - do 3 eexists. split; [vm_compute; reflexivity|].
    split; [vm_compute; reflexivity|].
    split; [vm_compute; reflexivity|].
    split; [vm_compute; reflexivity|].
    split; vm_compute; reflexivity.
Qed.

(** * Destruction *)

Lemma bind_Ok {A B} (m : M A) (k : A -> M B) w b w' :
  bind m k w = Ok b w' -> exists a w1, m w = Ok a w1 /\ k a w1 = Ok b w'.
Proof.
  unfold bind. destruct (m w) as [a w1|]; [|discriminate]. eauto.
Qed.

Lemma free_Ok l w w' : free (Some l) w = Ok tt w' -> mem w' !! l = None.
Proof.
  unfold free. destruct (mem w !! l); [|discriminate].
  intros [= <-]. apply lookup_delete_eq.
Qed.

Lemma destroy_dangling E h w :
  mem w !! h = None -> audio_renderer_alsa_destroy E (Some h) w = Fault.
Proof.
  intros Hnone.
  unfold audio_renderer_alsa_destroy, audio_renderer_alsa_flush,
    audio_renderer_alsa_destroy_decoder, field, load_renderer, bind, ret.
  now rewrite Hnone.
Qed.

(** C8, as the code has it: destroy on the null handle returns at once
    and changes nothing, in every world.  A destroy that returns has freed
    the renderer structure, and the code keeps no mark of it: a second
    destroy on the same handle reads the freed structure, which is a fault
    (undefined behaviour), not a no-op. *)
Theorem destroy_null_is_noop_second_destroy_faults E h w w' :
  audio_renderer_alsa_destroy E (Some h) w = Ok tt w' ->
  (forall w0, audio_renderer_alsa_destroy E None w0 = Ok tt w0) /\
  mem w' !! h = None /\
  audio_renderer_alsa_destroy E (Some h) w' = Fault.
Proof.
  intros Hrun. split; [reflexivity|].
  assert (Hnone : mem w' !! h = None).
  { unfold audio_renderer_alsa_destroy in Hrun.
    apply bind_Ok in Hrun as (? & w1 & _ & Hrun).
    apply bind_Ok in Hrun as (? & w2 & _ & Hrun).
    apply bind_Ok in Hrun as (? & w3 & _ & Hrun).
    now apply free_Ok in Hrun. }
  split; [exact Hnone|]. now apply destroy_dangling.
Qed.

Lemma destroy_ready_world :
  audio_renderer_alsa_destroy nominal_env (Some 1%positive) ready_world
  = Ok tt destroyed_world.
Proof. vm_compute. reflexivity. Qed.

Lemma destroy_null_is_noop_second_destroy_faults_witness :
  (forall w0, audio_renderer_alsa_destroy nominal_env None w0 = Ok tt w0) /\
  mem destroyed_world !! 1%positive = None /\
  audio_renderer_alsa_destroy nominal_env (Some 1%positive) destroyed_world = Fault.
Proof.
  apply (destroy_null_is_noop_second_destroy_faults nominal_env 1%positive
           ready_world destroyed_world).
  vm_compute. reflexivity.
Defined.

(** C8 as stated fails: on the renderer built on the sample card the first
    destroy returns and the second one faults. *)
Lemma destroy_again_is_not_noop : ~ destroy_again_is_noop.
Proof.
  intros H.
  specialize (H nominal_env 1%positive ready_world destroyed_world destroy_ready_world).
  vm_compute in H. discriminate H.
Qed.

(** The first destroy, run: decoder closed, stream drained and closed,
    control handle closed, structure freed. *)
Example destroy_run :
  drop (length (trace ready_world)) (trace destroyed_world) =
    [ Lib (AacDecoder_Close (Some 2%positive)) 0;
      Lib (Snd_pcm_drain (Some 3%positive)) 0;
      Lib (Snd_pcm_close (Some 3%positive)) 0;
      Lib (Snd_ctl_close (Some 4%positive)) 0 ] /\
  open_handles destroyed_world = [] /\
  mem destroyed_world !! 1%positive = None.
Proof. repeat split; vm_compute; reflexivity. Qed.

(** * Further proof rules *)

Lemma wp_run {A} (m : M A) (w : World) (Q : A -> World -> Prop) a w' :
  m w = Ok a w' -> Q a w' -> wp m w Q.
Proof. unfold wp. now intros ->. Qed.

(** * Further properties of the render and volume paths *)

Ltac split_tests :=
  repeat match goal with
         | H : _ && _ = false |- _ => apply andb_false_iff in H as [H|H]
         end.

Ltac rewrite_tests :=
  repeat match goal with
         | H : (?a <? ?b) = _ |- context [?a <? ?b] => rewrite H
         | H : (?a <=? ?b) = _ |- context [?a <=? ?b] => rewrite H
         end.

Section MoreSpecs.

Variable E : Env.

Lemma render_order_spec w h r p ntp data data_len pts :
  mem w !! h = Some (BRenderer r) ->
  audio_renderer r = Some p ->
  mem w !! p = Some (BPcm (Some playback_setup)) ->
  data_len <> 0 ->
  wp (audio_renderer_alsa_render_buffer E (Some h) ntp data data_len pts) w
     (fun _ w' => render_order_post w r p data data_len w').
Proof.
  intros Hh Hp Hpcm Hlen.
  unfold audio_renderer_alsa_render_buffer.
  destruct (Z.eqb_spec data_len 0); [done|].
  destruct r as [b c d p' cl id]; simpl in Hp; subst p'.
  repeat wp_step.
  all: change ((4 * 480 * 8) `div` frame_bits playback_setup) with 480 in *.
  all: try (exfalso; bool_lia).
  all: unfold render_order_post;
       cbn [mem mHasCtrlVolume mixer set_mem set_mHasCtrlVolume set_mixer record].
  all: do 7 eexists; split; [trace_eq|]; cbn [app].
  all: cbn [calls List.filter is_lib audio_decoder base_logger base take drop].
  all: split; [reflexivity|].
  all: rewrite_tests; split; [reflexivity|].
  all: split; [intros; first [exfalso; split_tests; bool_lia | reflexivity]|].
  all: split; [intros; first [exfalso; split_tests; bool_lia | reflexivity]|].
  all: split; [intros; first [exfalso; split_tests; bool_lia | reflexivity]|].
  all: split; [intros; first [exfalso; split_tests; bool_lia | reflexivity]|].
  all: split; [reflexivity|].
  all: split; [|rewrite ?delete_insert_eq, ?delete_id by assumption; reflexivity].
  all: first [ left; split; [bool_lia|reflexivity]
             | right; split; [bool_lia|]; eexists; split; [reflexivity|assumption] ].
Qed.

Lemma set_volume_events_spec w h r c dev i id volume db :
  mem w !! h = Some (BRenderer r) ->
  ctl r = Some c ->
  mem w !! c = Some (BCtl dev) ->
  ctl_elem_id r = Some i ->
  mem w !! i = Some (BElemId id) ->
  mHasCtrlVolume w = true ->
  scaled_dB (LONG_BITS E) volume = Some db ->
  wp (audio_renderer_alsa_set_volume E (Some h) volume) w
     (fun _ w' => volume_events_post w w').
Proof.
  intros Hh Hc Hctl Hi Hid Hflag Hdb.
  unfold audio_renderer_alsa_set_volume.
  destruct r as [b cf d p c' i']; simpl in Hc, Hi; subst c' i'.
  wp_step. wp_step. rewrite Hflag. cbn [negb].
  repeat wp_step.
  all: unfold volume_events_post; split; [mem_eq|]; split; [reflexivity|].
  all: eexists; split; [trace_eq|]; reflexivity.
Qed.

End MoreSpecs.

(** * Further properties of construction *)

Lemma last_match_snoc es e :
  last_match (es ++ [e]) = if matches_volume e then Some e else last_match es.
Proof.
  induction es as [|x es IH]; cbn [last_match app].
  - now destruct (matches_volume e).
  - rewrite IH. destruct (matches_volume e); [reflexivity|].
    reflexivity.
Qed.

Lemma find_playback_volume_spec h r i id list l n w :
  mem w !! h = Some (BRenderer r) ->
  ctl_elem_id r = Some i ->
  mem w !! i = Some (BElemId id) ->
  mem w !! list = Some (BElemList l) ->
  (n <= length (list_used l))%nat ->
  find_playback_volume (Some h) list n w = Ok tt (searched w r i id (list_used l) n).
Proof.
  intros Hh Hi Hid Hl. induction n as [|n IH]; intros Hn.
  - reflexivity.
  - destruct (lookup_lt_is_Some_2 (list_used l) n) as [e He]; [lia|].
    assert (Htake : take (S n) (list_used l) = take n (list_used l) ++ [e])
      by now apply take_S_r.
    unfold searched. rewrite Htake, last_match_snoc.
    change (find_playback_volume (Some h) list (S n) w)
      with (bind (snd_ctl_elem_list_get_name list n)
              (fun name =>
                 bind (cstring name)
                   (fun name =>
                      if strstr name "Playback Volume"
                      then bind (field ctl_elem_id (Some h))
                             (fun id =>
                                bind (snd_ctl_elem_list_get_numid list n)
                                  (fun x => snd_ctl_elem_id_set_numid id x))
                      else bind (when (Nat.eqb (S n) 1)
                                   (bind (field base_logger (Some h))
                                      (fun lg =>
                                         bind (logger_log lg LOGGER_INFO
                                                 (AStr "Cannot control Volume for selected device") [])
                                           (fun _ => put_mHasCtrlVolume false))))
                             (fun _ => find_playback_volume (Some h) list n)))
              w).
    unfold snd_ctl_elem_list_get_name, load_elem_list, cstring, bind at 1 2, ret.
    rewrite Hl, He. cbn [fmap option_fmap option_map].
    unfold matches_volume.
    destruct (strstr (elem_name e) "Playback Volume") eqn:Hm.
    + unfold field, load_renderer, snd_ctl_elem_list_get_numid, load_elem_list,
        snd_ctl_elem_id_set_numid, peek, poke, bind, ret.
      cbv beta. rewrite Hm. cbv beta iota. rewrite Hh. cbv beta iota.
      rewrite Hl. cbv beta iota. rewrite Hi, Hid, He. reflexivity.
    + destruct n as [|n].
      * cbn [Nat.eqb when take last_match].
        unfold field, load_renderer, logger_log, put_mHasCtrlVolume, bind, ret.
        cbv beta. rewrite Hm. cbv beta iota. rewrite Hh. reflexivity.
      * cbn [Nat.eqb when]. unfold bind at 1, ret.
        cbv beta. rewrite Hm. cbv beta iota.
        unfold bind. cbv beta iota.
        rewrite IH by lia. unfold searched.
        destruct (last_match (take (S n) (list_used l))); reflexivity.
Qed.

(** Steps up to, and not into, the search loop. *)
Ltac wp_step_to_loop :=
  lazymatch goal with
  | |- wp (find_playback_volume _ _ _) _ _ => fail
  | _ => wp_step_env
  end.

Ltac frame_lookup :=
  cbn [mem mHasCtrlVolume mixer trace set_mem set_mHasCtrlVolume set_mixer record];
  rewrite ?lookup_delete, ?lookup_insert;
  repeat case_decide; subst; congruence.

Section Construction.

Variable E : Env.

Lemma init_success_spec lg vr cfg es w :
  answers E construction_succeeds ->
  (forall t, ctl_elems E t = es) ->
  wp (audio_renderer_alsa_init E lg vr (Some cfg)) w (constructed lg cfg es w).
Proof.
  intros Henv Hes.
  unfold audio_renderer_alsa_init.
  repeat (wp_step_to_loop; rewrite ?Hes).
  eapply wp_run.
  { eapply find_playback_volume_spec.
    - mem_lookup.
    - reflexivity.
    - mem_lookup.
    - mem_lookup.
    - cbn [list_used]. rewrite length_take. apply Nat.min_glb; apply Nat.le_refl. }
  unfold searched. cbn [list_used]. rewrite !firstn_all.
  destruct (last_match es) as [e|] eqn:Hlast; [|destruct es as [|e0 es']].
  all: cbn [length]; repeat wp_step_env.
  all: unfold constructed, chosen_numid, volume_flag; rewrite Hlast.
  all: exists l, l0, l1, l2, l3.
  all: split; [reflexivity|].
  all: split; [repeat (apply Forall_cons_2; [assumption|]); apply Forall_nil_2|].
  all: split; [mem_lookup|]; split; [mem_lookup|]; split; [mem_lookup|].
  all: split; [mem_lookup|]; split; [mem_lookup|].
  all: split; [try destruct es; reflexivity|]; split; [reflexivity|].
  all: split; [intros; frame_lookup|].
  all: eexists; split; [trace_eq|]; cbn [app].
  all: split; [reflexivity|]; split; reflexivity.
Qed.

End Construction.

(** * Further properties of destruction *)

Ltac teardown_events :=
  repeat (apply Forall_cons_2; [reflexivity|]); apply Forall_nil_2.

Section Teardown.

Variable E : Env.

Lemma destroy_spec w h r d cf p s c dev :
  mem w !! h = Some (BRenderer r) ->
  audio_decoder r = Some d -> mem w !! d = Some (BDecoder cf) ->
  audio_renderer r = Some p -> mem w !! p = Some (BPcm s) ->
  ctl r = Some c -> mem w !! c = Some (BCtl dev) ->
  wp (audio_renderer_alsa_destroy E (Some h)) w (fun _ w' => destroyed w h d p c w').
Proof.
  intros Hh Hd Hdm Hp Hpm Hc Hcm.
  destruct r as [b cfg d' p' c' i]; simpl in Hd, Hp, Hc; subst d' p' c'.
  unfold audio_renderer_alsa_destroy.
  repeat wp_step.
  all: unfold destroyed.
  all: split; [cbn [mem set_mem record]; reflexivity || mem_eq|].
  all: split; [reflexivity|]; split; [reflexivity|].
  all: eexists; split; [trace_eq|]; cbn [app].
  all: split; [reflexivity | teardown_events].
Qed.

End Teardown.

(** * Construction: what a user can rely on *)

Lemma nominal_env_constructs E' :
  reply E' = nominal_reply -> answers E' construction_succeeds.
Proof.
  intros Hr t c. rewrite Hr. destruct c; simpl; unfold AAC_DEC_OK; lia.
Qed.

(** X1: when every call of the construction succeeds and the card lists
    [es], create returns a fresh handle to a structure that owns an open,
    configured decoder, a stream with the playback parameters, a control
    handle on the configured device and an element id of the mixer
    interface; the flag is [volume_flag es] whatever it was before, and no
    other block of memory is changed or left behind. *)
Theorem create_succeeds E lg vr cfg es w :
  answers E construction_succeeds ->
  (forall t, ctl_elems E t = es) ->
  exists a w',
    audio_renderer_alsa_init E lg vr (Some cfg) w = Ok a w' /\
    constructed lg cfg es w a w'.
Proof.
  intros Henv Hes.
  apply (wp_elim _ _ _ (init_success_spec E lg vr cfg es w Henv Hes)).
Qed.

Lemma create_succeeds_witness :
  exists a w',
    audio_renderer_alsa_init nominal_env sample_logger None
      (Some {| alsaString := None |}) empty_world = Ok a w' /\
    constructed sample_logger {| alsaString := None |} card empty_world a w'.
Proof.
  apply (create_succeeds nominal_env sample_logger None {| alsaString := None |} card
           empty_world).
  - apply nominal_env_constructs. reflexivity.
  - reflexivity.
Defined.

Lemma last_match_pick pre e post :
  matches_volume e = true ->
  forallb (fun x => negb (matches_volume x)) post = true ->
  last_match (pre ++ e :: post) = Some e.
Proof.
  intros He Hpost.
  assert (Hnone : last_match post = None).
  { induction post as [|x post IH]; [reflexivity|].
    cbn [forallb] in Hpost. apply andb_true_iff in Hpost as [Hx Hpost].
    cbn [last_match]. rewrite (IH Hpost).
    now destruct (matches_volume x). }
  induction pre as [|x pre IH]; cbn [app last_match].
  - now rewrite Hnone, He.
  - now rewrite IH.
Qed.

(** X2: of several elements whose name contains "Playback Volume" the
    one latest in the listing is taken: if [e] matches and no entry after
    it does, a successful construction leaves the element id with [e]'s
    numid and volume control enabled. *)
Theorem volume_element_is_last_match E lg vr cfg pre e post w :
  answers E construction_succeeds ->
  (forall t, ctl_elems E t = pre ++ e :: post) ->
  matches_volume e = true ->
  forallb (fun x => negb (matches_volume x)) post = true ->
  exists h w' r i,
    audio_renderer_alsa_init E lg vr (Some cfg) w = Ok (Some h) w' /\
    mem w' !! h = Some (BRenderer r) /\
    ctl_elem_id r = Some i /\
    mem w' !! i =
      Some (BElemId {| iface := SND_CTL_ELEM_IFACE_MIXER; numid := elem_numid e |}) /\
    mHasCtrlVolume w' = true.
Proof.
  intros Henv Hes He Hpost.
  destruct (wp_elim _ _ _ (init_success_spec E lg vr cfg _ w Henv Hes))
    as (a & w' & Hrun & h & d & p & c & i & -> & _ & Hh & _ & _ & _ & Hi & Hflag & _).
  unfold chosen_numid, volume_flag in *.
  rewrite (last_match_pick pre e post He Hpost) in *.
  exists h, w'. eexists. exists i.
  split; [exact Hrun|]. split; [exact Hh|]. split; [reflexivity|].
  split; [exact Hi|]. rewrite Hflag. now destruct pre.
Qed.

Lemma volume_element_is_last_match_witness :
  exists h w' r i,
    audio_renderer_alsa_init (env_of nominal_reply card_two_volumes) sample_logger None
      (Some {| alsaString := Some "hw:1" |}) empty_world = Ok (Some h) w' /\
    mem w' !! h = Some (BRenderer r) /\
    ctl_elem_id r = Some i /\
    mem w' !! i = Some (BElemId {| iface := SND_CTL_ELEM_IFACE_MIXER; numid := 3 |}) /\
    mHasCtrlVolume w' = true.
Proof.
  apply (volume_element_is_last_match (env_of nominal_reply card_two_volumes)
           sample_logger None {| alsaString := Some "hw:1" |}
           [ {| elem_numid := 1; elem_name := "Master Playback Volume" |};
             {| elem_numid := 2; elem_name := "Master Playback Switch" |} ]
           {| elem_numid := 3; elem_name := "PCM Playback Volume" |}
           [ {| elem_numid := 4; elem_name := "Capture Volume" |} ]
           empty_world).
  - apply nominal_env_constructs. reflexivity.
  - reflexivity.
  - reflexivity.
  - reflexivity.
Defined.

(** X3: the volume capability is one flag for the whole process.  After a
    successful construction on a card that lists elements none of which
    matches, [set_volume] is a no-op on every handle and in every
    environment, also on a renderer built earlier on a card that has a
    volume element. *)
Theorem construction_without_match_disables_all_volume E lg vr cfg es w :
  answers E construction_succeeds ->
  (forall t, ctl_elems E t = es) ->
  es <> [] ->
  last_match es = None ->
  exists h w',
    audio_renderer_alsa_init E lg vr (Some cfg) w = Ok (Some h) w' /\
    forall E' renderer volume,
      audio_renderer_alsa_set_volume E' renderer volume w' = Ok tt w'.
Proof.
  intros Henv Hes Hne Hnone.
  destruct (wp_elim _ _ _ (init_success_spec E lg vr cfg _ w Henv Hes))
    as (a & w' & Hrun & h & d & p & c & i & -> & _ & _ & _ & _ & _ & _ & Hflag & _).
  exists h, w'. split; [exact Hrun|].
  intros E' renderer volume.
  unfold audio_renderer_alsa_set_volume, bind, get_mHasCtrlVolume.
  rewrite Hflag. unfold volume_flag. rewrite Hnone.
  destruct es; [contradiction|reflexivity].
Qed.

Lemma construction_without_match_disables_all_volume_witness :
  exists h w',
    audio_renderer_alsa_init (env_of nominal_reply card_without_volume) sample_logger
      None (Some {| alsaString := None |}) ready_world = Ok (Some h) w' /\
    forall E' renderer volume,
      audio_renderer_alsa_set_volume E' renderer volume w' = Ok tt w'.
Proof.
  apply (construction_without_match_disables_all_volume
           (env_of nominal_reply card_without_volume) sample_logger None
           {| alsaString := None |} card_without_volume ready_world).
  - apply nominal_env_constructs. reflexivity.
  - reflexivity.
  - discriminate.
  - reflexivity.
Defined.

(** * Construction that gives up *)

Ltac abort_events :=
  do 2 eexists; split; [trace_eq|]; cbn [app];
  split; [reflexivity|]; split; [reflexivity|].

Section Unwinding.

Variable E : Env.

Lemma init_calloc_failure_spec lg vr cfg w :
  answers E calloc_fails ->
  wp (audio_renderer_alsa_init E lg vr cfg) w
     (fun a w' => a = None /\ mem w' = mem w /\
                  mHasCtrlVolume w' = mHasCtrlVolume w /\
                  trace w' = trace w ++ [Lib Calloc 0]).
Proof.
  intros Henv. unfold audio_renderer_alsa_init.
  repeat wp_step_env.
  apply Z.eqb_eq in Hreply. subst r. repeat split.
Qed.

Lemma init_decoder_open_abort lg vr cfg w :
  answers E decoder_open_fails ->
  wp (audio_renderer_alsa_init E lg vr cfg) w
     (aborted w lg None [] (eq (AStr "aacDecoder open failed!"))).
Proof.
  intros Henv. unfold audio_renderer_alsa_init.
  repeat wp_step_env.
  unfold aborted.
  split; [reflexivity|]; split; [reflexivity|]; split; [reflexivity|].
  split; [mem_eq|]. abort_events. reflexivity.
Qed.

Lemma init_config_raw_abort lg vr cfg w :
  answers E config_raw_fails ->
  wp (audio_renderer_alsa_init E lg vr cfg) w
     (aborted w lg (Some (BDecoder false)) [] (eq (AStr "Unable to set configRaw"))).
Proof.
  intros Henv. unfold audio_renderer_alsa_init.
  repeat wp_step_env.
  unfold aborted.
  split; [reflexivity|]; split; [reflexivity|]; split; [reflexivity|].
  split; [exists l0; split; [assumption|mem_eq]|]. abort_events. reflexivity.
Qed.

Lemma init_stream_info_abort lg vr cfg w :
  answers E stream_info_fails ->
  wp (audio_renderer_alsa_init E lg vr cfg) w
     (aborted w lg (Some (BDecoder true)) []
        (eq (AStr "aacDecoder_GetStreamInfo failed!"))).
Proof.
  intros Henv. unfold audio_renderer_alsa_init.
  repeat wp_step_env.
  unfold aborted.
  split; [reflexivity|]; split; [reflexivity|]; split; [reflexivity|].
  split; [exists l0; split; [assumption|mem_eq]|]. abort_events. reflexivity.
Qed.

Lemma init_pcm_open_abort lg vr cfg w :
  answers E pcm_open_fails ->
  wp (audio_renderer_alsa_init E lg vr (Some cfg)) w
     (aborted w lg None [CloseDecoder] error_text).
Proof.
  intros Henv. unfold audio_renderer_alsa_init.
  repeat wp_step_env.
  unfold aborted.
  split; [reflexivity|]; split; [reflexivity|]; split; [reflexivity|].
  split; [mem_eq|]. abort_events.
  eexists; split; [reflexivity|bool_lia].
Qed.

Lemma init_set_params_abort lg vr cfg w :
  answers E set_params_fails ->
  wp (audio_renderer_alsa_init E lg vr (Some cfg)) w
     (aborted w lg (Some (BPcm None)) [CloseDecoder] error_text).
Proof.
  intros Henv. unfold audio_renderer_alsa_init.
  repeat wp_step_env.
  unfold aborted.
  split; [reflexivity|]; split; [reflexivity|]; split; [reflexivity|].
  split; [exists l1; split; [assumption|mem_eq]|]. abort_events.
  eexists; split; [reflexivity|bool_lia].
Qed.

End Unwinding.

Ltac answers_by_cases := intros ? c; destruct c; simpl; unfold AAC_DEC_OK; lia.

(** X4: when [calloc] returns NULL, create returns NULL at once: nothing
    is allocated, no library is called, nothing is logged, and the flag is
    as before. *)
Theorem create_allocation_failure E lg vr cfg w :
  answers E calloc_fails ->
  exists w',
    audio_renderer_alsa_init E lg vr cfg w = Ok None w' /\
    mem w' = mem w /\ mHasCtrlVolume w' = mHasCtrlVolume w /\
    trace w' = trace w ++ [Lib Calloc 0].
Proof.
  intros Henv.
  destruct (wp_elim _ _ _ (init_calloc_failure_spec E lg vr cfg w Henv))
    as (a & w' & Hrun & -> & H).
  exists w'. split; [exact Hrun | exact H].
Qed.

Lemma create_allocation_failure_witness :
  exists w',
    audio_renderer_alsa_init (env_of calloc_fail_reply card) sample_logger None None
      ready_world = Ok None w' /\
    mem w' = mem ready_world /\ mHasCtrlVolume w' = mHasCtrlVolume ready_world /\
    trace w' = trace ready_world ++ [Lib Calloc 0].
Proof.
  apply (create_allocation_failure (env_of calloc_fail_reply card) sample_logger None
           None ready_world).
  answers_by_cases.
Defined.

(** X5: when [aacDecoder_Open] returns NULL, create logs "aacDecoder open
    failed!", frees the structure and returns NULL; memory is as before
    and no library object is closed.  The configuration is not looked at:
    it may be NULL. *)
Theorem create_decoder_open_failure E lg vr cfg w :
  answers E decoder_open_fails ->
  exists a w',
    audio_renderer_alsa_init E lg vr cfg w = Ok a w' /\
    aborted w lg None [] (eq (AStr "aacDecoder open failed!")) a w'.
Proof.
  intros Henv. apply (wp_elim _ _ _ (init_decoder_open_abort E lg vr cfg w Henv)).
Qed.

Lemma create_decoder_open_failure_witness :
  exists a w',
    audio_renderer_alsa_init (env_of decoder_open_fail_reply card) sample_logger None
      None empty_world = Ok a w' /\
    aborted empty_world sample_logger None [] (eq (AStr "aacDecoder open failed!")) a w'.
Proof.
  apply (create_decoder_open_failure (env_of decoder_open_fail_reply card)
           sample_logger None None empty_world).
  answers_by_cases.
Defined.

(** X6: when [aacDecoder_ConfigRaw] is refused, create logs "Unable to
    set configRaw", frees the structure and returns NULL without closing
    the decoder: memory is as before plus one open, unconfigured decoder
    that nothing refers to. *)
Theorem create_config_failure_keeps_decoder E lg vr cfg w :
  answers E config_raw_fails ->
  exists a w',
    audio_renderer_alsa_init E lg vr cfg w = Ok a w' /\
    aborted w lg (Some (BDecoder false)) [] (eq (AStr "Unable to set configRaw")) a w'.
Proof.
  intros Henv. apply (wp_elim _ _ _ (init_config_raw_abort E lg vr cfg w Henv)).
Qed.

Lemma create_config_failure_keeps_decoder_witness :
  exists a w',
    audio_renderer_alsa_init (env_of config_raw_fail_reply card) sample_logger None
      None empty_world = Ok a w' /\
    aborted empty_world sample_logger (Some (BDecoder false)) []
      (eq (AStr "Unable to set configRaw")) a w'.
Proof.
  apply (create_config_failure_keeps_decoder (env_of config_raw_fail_reply card)
           sample_logger None None empty_world).
  answers_by_cases.
Defined.

(** X7: when [aacDecoder_GetStreamInfo] returns NULL, create logs
    "aacDecoder_GetStreamInfo failed!", frees the structure and returns
    NULL without closing the decoder: memory is as before plus one open,
    configured decoder that nothing refers to. *)
Theorem create_stream_info_failure_keeps_decoder E lg vr cfg w :
  answers E stream_info_fails ->
  exists a w',
    audio_renderer_alsa_init E lg vr cfg w = Ok a w' /\
    aborted w lg (Some (BDecoder true)) []
      (eq (AStr "aacDecoder_GetStreamInfo failed!")) a w'.
Proof.
  intros Henv. apply (wp_elim _ _ _ (init_stream_info_abort E lg vr cfg w Henv)).
Qed.

Lemma create_stream_info_failure_keeps_decoder_witness :
  exists a w',
    audio_renderer_alsa_init (env_of stream_info_fail_reply card) sample_logger None
      sample_config empty_world = Ok a w' /\
    aborted empty_world sample_logger (Some (BDecoder true)) []
      (eq (AStr "aacDecoder_GetStreamInfo failed!")) a w'.
Proof.
  apply (create_stream_info_failure_keeps_decoder (env_of stream_info_fail_reply card)
           sample_logger None sample_config empty_world).
  answers_by_cases.
Defined.

(** X8: when [snd_pcm_open] fails, create logs the text of the error
    code, closes the decoder, frees the structure and returns NULL; memory
    is as before, and the stream is neither drained nor closed. *)
Theorem create_stream_open_failure E lg vr cfg w :
  answers E pcm_open_fails ->
  exists a w',
    audio_renderer_alsa_init E lg vr (Some cfg) w = Ok a w' /\
    aborted w lg None [CloseDecoder] error_text a w'.
Proof.
  intros Henv. apply (wp_elim _ _ _ (init_pcm_open_abort E lg vr cfg w Henv)).
Qed.

Lemma create_stream_open_failure_witness :
  exists a w',
    audio_renderer_alsa_init (env_of pcm_open_fail_reply card) sample_logger None
      (Some {| alsaString := Some "hw:7" |}) empty_world = Ok a w' /\
    aborted empty_world sample_logger None [CloseDecoder] error_text a w'.
Proof.
  apply (create_stream_open_failure (env_of pcm_open_fail_reply card) sample_logger
           None {| alsaString := Some "hw:7" |} empty_world).
  answers_by_cases.
Defined.

(** X9: when [snd_pcm_set_params] fails, create logs the text of the
    error code, closes the decoder, frees the structure and returns NULL
    without closing the stream: memory is as before plus one open stream
    without parameters that nothing refers to. *)
Theorem create_params_failure_keeps_stream E lg vr cfg w :
  answers E set_params_fails ->
  exists a w',
    audio_renderer_alsa_init E lg vr (Some cfg) w = Ok a w' /\
    aborted w lg (Some (BPcm None)) [CloseDecoder] error_text a w'.
Proof.
  intros Henv. apply (wp_elim _ _ _ (init_set_params_abort E lg vr cfg w Henv)).
Qed.

Lemma create_params_failure_keeps_stream_witness :
  exists a w',
    audio_renderer_alsa_init (env_of set_params_fail_reply card) sample_logger None
      (Some {| alsaString := None |}) ready_world = Ok a w' /\
    aborted ready_world sample_logger (Some (BPcm None)) [CloseDecoder] error_text a w'.
Proof.
  apply (create_params_failure_keeps_stream (env_of set_params_fail_reply card)
           sample_logger None {| alsaString := None |} ready_world).
  answers_by_cases.
Defined.

(** * A renderer's life *)

(** X10: destroy of a live renderer closes the decoder, drains and
    closes the stream and closes the control handle, in this order and
    each on the renderer's own object, then frees the structure.  The four
    blocks are gone from memory and nothing else is: the element id
    allocated at construction is still allocated.  Flag and mixer are
    untouched. *)
Theorem destroy_releases_all_but_element_id E w h r d cf p s c dev i id :
  mem w !! h = Some (BRenderer r) ->
  audio_decoder r = Some d -> mem w !! d = Some (BDecoder cf) ->
  audio_renderer r = Some p -> mem w !! p = Some (BPcm s) ->
  ctl r = Some c -> mem w !! c = Some (BCtl dev) ->
  ctl_elem_id r = Some i -> mem w !! i = Some (BElemId id) ->
  exists w',
    audio_renderer_alsa_destroy E (Some h) w = Ok tt w' /\
    destroyed w h d p c w' /\
    mem w' !! i = Some (BElemId id).
Proof.
  intros Hh Hd Hdm Hp Hpm Hc Hcm Hi Him.
  destruct (wp_elim _ _ _ (destroy_spec E w h r d cf p s c dev Hh Hd Hdm Hp Hpm Hc Hcm))
    as ([] & w' & Hrun & Hpost).
  exists w'. split; [exact Hrun|]. split; [exact Hpost|].
  destruct Hpost as (-> & _).
  rewrite !lookup_delete_ne by congruence. exact Him.
Qed.

Lemma destroy_releases_all_but_element_id_witness :
  exists w',
    audio_renderer_alsa_destroy nominal_env (Some 1%positive) ready_world = Ok tt w' /\
    destroyed ready_world 1%positive 2%positive 3%positive 4%positive w' /\
    mem w' !! 5%positive = Some (BElemId ready_elem_id).
Proof.
  apply (destroy_releases_all_but_element_id nominal_env ready_world 1%positive
           ready_renderer 2%positive true 3%positive (Some playback_setup) 4%positive
           "default" 5%positive ready_elem_id); vm_compute; reflexivity.
Defined.

(** * Rendering and volume *)

Lemma render_events_quiet evs :
  forallb render_event evs = true ->
  omap opened_device evs = [] /\ omap teardown_step_of evs = [].
Proof.
  induction evs as [|e evs IH]; [now split|].
  cbn [forallb]. intros [He Hevs]%andb_true_iff.
  destruct (IH Hevs) as [IH1 IH2].
  destruct e as [c x|]; [destruct c|]; try discriminate He; (split; assumption).
Qed.

Lemma volume_events_quiet evs :
  forallb volume_event evs = true ->
  calls is_writei evs = [] /\
  omap opened_device evs = [] /\ omap teardown_step_of evs = [].
Proof.
  induction evs as [|e evs IH]; [now repeat split|].
  cbn [forallb]. intros [He Hevs]%andb_true_iff.
  destruct (IH Hevs) as (IH1 & IH2 & IH3).
  destruct e as [c x|]; [destruct c|]; try discriminate He; (repeat split; assumption).
Qed.

Lemma calls_app kind (a b : list event) : calls kind (a ++ b) = calls kind a ++ calls kind b.
Proof. apply List.filter_app. Qed.

Lemma omap_nil_app {A B} (f : A -> option B) (a b : list A) :
  omap f a = [] -> omap f b = [] -> omap f (a ++ b) = [].
Proof. intros Ha Hb. now rewrite omap_app, Ha, Hb. Qed.

Section Serving.

Variable E : Env.

Lemma serve_all_spec h r p qs : forall w,
  playable w h r p ->
  Forall (volume_defined (LONG_BITS E)) qs ->
  wp (serve_all E (Some h) qs) w (fun _ w' => served w p qs w').
Proof.
  induction qs as [|q qs IH]; intros w Hplay Hdef.
  - apply wp_ret. split; [reflexivity|]. split; [reflexivity|].
    exists []. rewrite app_nil_r. repeat split. apply Forall_nil_2.
  - apply Forall_cons in Hdef as [Hq Hdef].
    assert (Hstep : exists w1 evs1,
               serve E (Some h) q w = Ok tt w1 /\
               mem w1 = mem w /\ mHasCtrlVolume w1 = mHasCtrlVolume w /\
               trace w1 = trace w ++ evs1 /\
               length (calls is_writei evs1) = (if carries_data q then 1 else 0)%nat /\
               Forall (fun e => exists buf x, e = Lib (Snd_pcm_writei (Some p) buf 480) x)
                 (calls is_writei evs1) /\
               omap opened_device evs1 = [] /\ omap teardown_step_of evs1 = []).
    { destruct Hplay as (Hh & Hp & Hpm & c & dev & i & id & Hc & Hcm & Hi & Him).
      destruct q as [|ntp data data_len pts|volume|]; cbn [serve carries_data].
      - exists w, []. rewrite app_nil_r. repeat split. apply Forall_nil_2.
      - destruct (Z.eqb_spec data_len 0) as [->|Hlen].
        + exists w, []. rewrite app_nil_r. repeat split. apply Forall_nil_2.
        + destruct (wp_elim _ _ _
                      (render_buffer_spec E w h r p ntp data data_len pts Hh Hp Hpm Hlen))
            as ([] & w1 & Hrun & Hm & Hf & _ & evs & m & f & d & buf & played & Ht & _ & _
                & _ & _ & Hw & _).
          destruct (wp_elim _ _ _
                      (render_order_spec E w h r p ntp data data_len pts Hh Hp Hpm Hlen))
            as ([] & w1' & Hrun' & evs' & f' & m' & d' & buf' & played' & final' & Ht'
                & _ & _ & _ & _ & _ & _ & Hall & _).
          rewrite Hrun in Hrun'. injection Hrun' as <-.
          rewrite Ht in Ht'. apply app_inv_head in Ht'. subst evs'.
          destruct (render_events_quiet evs Hall) as [Ho Hc'].
          exists w1, evs. split; [exact Hrun|]. split; [exact Hm|]. split; [exact Hf|].
          split; [exact Ht|]. rewrite Hw. split; [reflexivity|].
          split; [|split; assumption].
          apply Forall_cons_2; [eauto | apply Forall_nil_2].
      - destruct (mHasCtrlVolume w) eqn:Hflag.
        + destruct Hq as [db Hdb].
          destruct (wp_elim _ _ _
                      (set_volume_events_spec E w h r c dev i id volume db
                         Hh Hc Hcm Hi Him Hflag Hdb))
            as ([] & w1 & Hrun & Hm & Hf & evs & Ht & Hall).
          destruct (volume_events_quiet evs Hall) as (Hw & Ho & Hc').
          exists w1, evs. split; [exact Hrun|]. split; [exact Hm|].
          split; [congruence|]. split; [exact Ht|]. rewrite Hw.
          split; [reflexivity|]. split; [apply Forall_nil_2|]. split; assumption.
        + exists w, []. rewrite app_nil_r.
          split; [now apply set_volume_disabled|].
          repeat split; [exact Hflag | apply Forall_nil_2].
      - exists w, []. rewrite app_nil_r. repeat split. apply Forall_nil_2. }
    destruct Hstep as (w1 & evs1 & Hrun & Hm & Hf & Ht & Hn & Hw & Ho & Hc).
    assert (Hplay1 : playable w1 h r p).
    { unfold playable in *. now rewrite Hm. }
    specialize (IH w1 Hplay1 Hdef).
    cbn [serve_all]. apply wp_bind. eapply wp_run; [exact Hrun|].
    unfold wp in *. destruct (serve_all E (Some h) qs w1) as [[] w2|]; [|contradiction].
    destruct IH as (Hm2 & Hf2 & evs2 & Ht2 & Hn2 & Hw2 & Ho2 & Hc2).
    split; [congruence|]. split; [congruence|].
    exists (evs1 ++ evs2).
    split; [now rewrite Ht2, Ht, app_assoc|].
    rewrite calls_app, length_app, Hn, Hn2.
    split; [cbn [List.filter]; now destruct (carries_data q)|].
    split; [now apply Forall_app_2|].
    split; now apply omap_nil_app.
Qed.

End Serving.

(** * Faults *)

Lemma fault_bind {A B} (m : M A) (k : A -> M B) w :
  wp m w (fun a w' => k a w' = Fault) -> bind m k w = Fault.
Proof. unfold wp, bind. destruct (m w); [trivial | contradiction]. Qed.

Lemma fault_here {A B} (m : M A) (k : A -> M B) w :
  m w = Fault -> bind m k w = Fault.
Proof. unfold bind. now intros ->. Qed.

(** Runs the code up to, and not into, the PCM phase. *)
Ltac fault_prefix :=
  lazymatch goal with
  | |- bind (audio_renderer_rpi_init_renderer _ _ _) _ _ = Fault => fail
  | |- bind _ _ _ = Fault => apply fault_bind; repeat wp_step_env
  end;
  cbv beta iota.

Lemma load_dangling renderer w l b :
  dangling w renderer ->
  (forall r, b <> BRenderer r) ->
  load_renderer renderer (set_mem (<[l := b]> (mem w)) w) = Fault.
Proof.
  intros Hd Hb. unfold load_renderer.
  destruct renderer as [h|]; [|reflexivity].
  cbn [mem set_mem]. cbn [dangling] in Hd.
  destruct (decide (l = h)) as [->|Hne].
  - rewrite lookup_insert_eq. destruct b; try reflexivity. now destruct (Hb r).
  - rewrite lookup_insert_ne, Hd by exact Hne. reflexivity.
Qed.

Section HandleFaults.

Variable E : Env.

Lemma render_dangling renderer ntp data data_len pts w :
  dangling w renderer -> data_len <> 0 ->
  audio_renderer_alsa_render_buffer E renderer ntp data data_len pts w = Fault.
Proof.
  intros Hd Hlen. unfold audio_renderer_alsa_render_buffer.
  destruct (Z.eqb_spec data_len 0); [contradiction|].
  apply fault_here. unfold field, bind, load_renderer.
  destruct renderer as [h|]; [|reflexivity].
  cbn [dangling] in Hd. now rewrite Hd.
Qed.

Lemma set_volume_dangling renderer volume w :
  dangling w renderer -> mHasCtrlVolume w = true ->
  audio_renderer_alsa_set_volume E renderer volume w = Fault.
Proof.
  intros Hd Hflag. unfold audio_renderer_alsa_set_volume.
  apply fault_bind. wp_step. rewrite Hflag. cbn [negb].
  apply fault_bind. wp_step.
  unfold alloc at 1. unfold bind at 1.
  do 2 apply fault_here. unfold CHK_ALSA_ERRNO. do 2 apply fault_here.
  apply load_dangling; [exact Hd | discriminate].
Qed.

End HandleFaults.

(** * Sessions, reports and edge cases *)

Lemma ready_world_playable :
  playable ready_world 1%positive ready_renderer 3%positive.
Proof.
  split; [vm_compute; reflexivity|]. split; [reflexivity|].
  split; [vm_compute; reflexivity|].
  exists 4%positive, "default", 5%positive, ready_elem_id.
  split; [reflexivity|]. split; [vm_compute; reflexivity|].
  split; [reflexivity|]. vm_compute; reflexivity.
Qed.

Lemma sample_requests_defined : Forall (volume_defined 32) sample_requests.
Proof.
  repeat (apply Forall_cons_2; [try exact I|]); [|apply Forall_nil_2].
  eexists. vm_compute. reflexivity.
Qed.

(** X11: a whole session.  When every call of the construction succeeds,
    the handle serves any sequence of requests whose volumes can be
    scaled: memory is the same after the requests as before them and each
    request with data gave one write of 480 frames.  Destroying the handle
    then succeeds, and create followed by destroy does not give back all
    that create took: memory is as it was before create plus one block,
    the element id, holding the mixer interface and the numid chosen from
    the listing. *)
Theorem session_keeps_element_id E E1 E2 lg vr cfg es qs w :
  answers E construction_succeeds ->
  (forall t, ctl_elems E t = es) ->
  Forall (volume_defined (LONG_BITS E1)) qs ->
  exists h p i w1 w2 w3,
    audio_renderer_alsa_init E lg vr (Some cfg) w = Ok (Some h) w1 /\
    serve_all E1 (Some h) qs w1 = Ok tt w2 /\
    served w1 p qs w2 /\
    audio_renderer_alsa_destroy E2 (Some h) w2 = Ok tt w3 /\
    mem w !! i = None /\
    mem w3 =
      <[i := BElemId {| iface := SND_CTL_ELEM_IFACE_MIXER; numid := chosen_numid es |}]>
        (mem w) /\
    mHasCtrlVolume w3 = volume_flag es.
Proof.
  intros Henv Hes Hdef.
  destruct (wp_elim _ _ _ (init_success_spec E lg vr cfg es w Henv Hes))
    as (a & w1 & Hrun & h & d & p & c & i & -> & Hfresh & Hh & Hd & Hp & Hc & Hi
        & Hflag & _ & Hframe & _).
  lazymatch type of Hh with
  | _ = Some (BRenderer ?r) => set (rec := r) in *
  end.
  assert (Hplay : playable w1 h rec p).
  { split; [exact Hh|]. split; [reflexivity|]. split; [exact Hp|].
    exists c, (device_of cfg), i. eexists.
    split; [reflexivity|]. split; [exact Hc|]. split; [reflexivity|]. exact Hi. }
  destruct (wp_elim _ _ _ (serve_all_spec E1 h rec p qs w1 Hplay Hdef))
    as ([] & w2 & Hrun1 & Hserved).
  pose proof Hserved as (Hm2 & Hf2 & _).
  rewrite <- Hm2 in Hh, Hd, Hp, Hc.
  destruct (wp_elim _ _ _
              (destroy_spec E2 w2 h rec d true p (Some playback_setup) c (device_of cfg)
                 Hh eq_refl Hd eq_refl Hp eq_refl Hc))
    as ([] & w3 & Hrun2 & Hmem & Hflag2 & _).
  apply Forall_cons in Hfresh as [Hfh Hfresh].
  apply Forall_cons in Hfresh as [Hfd Hfresh].
  apply Forall_cons in Hfresh as [Hfp Hfresh].
  apply Forall_cons in Hfresh as [Hfc Hfresh].
  apply Forall_cons in Hfresh as [Hfi _].
  exists h, p, i, w1, w2, w3.
  split; [exact Hrun|]. split; [exact Hrun1|]. split; [exact Hserved|].
  split; [exact Hrun2|]. split; [exact Hfi|].
  split; [|now rewrite Hflag2, Hf2].
  rewrite Hmem, Hm2. apply map_eq. intros l.
  destruct (decide (l = h)) as [->|Hlh];
    [rewrite lookup_delete_eq, lookup_insert_ne, Hfh by congruence; reflexivity|].
  rewrite lookup_delete_ne by congruence.
  destruct (decide (l = c)) as [->|Hlc];
    [rewrite lookup_delete_eq, lookup_insert_ne, Hfc by congruence; reflexivity|].
  rewrite lookup_delete_ne by congruence.
  destruct (decide (l = p)) as [->|Hlp];
    [rewrite lookup_delete_eq, lookup_insert_ne, Hfp by congruence; reflexivity|].
  rewrite lookup_delete_ne by congruence.
  destruct (decide (l = d)) as [->|Hld];
    [rewrite lookup_delete_eq, lookup_insert_ne, Hfd by congruence; reflexivity|].
  rewrite lookup_delete_ne by congruence.
  destruct (decide (l = i)) as [->|Hli].
  - rewrite lookup_insert_eq. exact Hi.
  - rewrite lookup_insert_ne by congruence. apply Hframe; assumption.
Qed.

Lemma session_keeps_element_id_witness :
  exists h p i w1 w2 w3,
    audio_renderer_alsa_init nominal_env sample_logger None
      (Some {| alsaString := None |}) empty_world = Ok (Some h) w1 /\
    serve_all (env_of underrun_reply card) (Some h) sample_requests w1 = Ok tt w2 /\
    served w1 p sample_requests w2 /\
    audio_renderer_alsa_destroy (env_of mixer_error_reply card) (Some h) w2 = Ok tt w3 /\
    mem empty_world !! i = None /\
    mem w3 =
      <[i := BElemId {| iface := SND_CTL_ELEM_IFACE_MIXER; numid := chosen_numid card |}]>
        (mem empty_world) /\
    mHasCtrlVolume w3 = volume_flag card.
Proof.
  apply (session_keeps_element_id nominal_env (env_of underrun_reply card)
           (env_of mixer_error_reply card) sample_logger None {| alsaString := None |}
           card sample_requests empty_world).
  - apply nominal_env_constructs. reflexivity.
  - reflexivity.
  - exact sample_requests_defined.
Defined.

(** X12: the library calls of one render call come in a fixed order:
    fill, allocation of 1920 bytes, decode into the buffer just allocated,
    one write of 480 frames from that buffer, and, only when the write
    returned a negative count, one recovery with that count.  The buffer
    [buf] handed to the decoder and to the stream is what [malloc]
    returned: NULL when the allocation failed, else a block that was not
    allocated before the call; it is freed at the end, so memory is as
    before.  A decoder error or a failed allocation does not end the call
    early, and the call reaches no library object other than the decoder,
    the allocator and the stream. *)
Theorem render_calls_in_order E w h r p ntp data data_len pts :
  mem w !! h = Some (BRenderer r) ->
  audio_renderer r = Some p ->
  mem w !! p = Some (BPcm (Some playback_setup)) ->
  data_len <> 0 ->
  exists w' evs f m d buf played final,
    audio_renderer_alsa_render_buffer E (Some h) ntp data data_len pts w = Ok tt w' /\
    trace w' = trace w ++ evs /\
    calls is_lib evs =
      [ Lib (AacDecoder_Fill (audio_decoder r) data (UINT_of_int data_len)
               (UINT_of_int data_len)) f;
        Lib (Malloc (4 * 480)) m;
        Lib (AacDecoder_DecodeFrame (audio_decoder r) buf (4 * 480) 0) d;
        Lib (Snd_pcm_writei (Some p) buf 480) played ] ++
      (if played <? 0
       then [Lib (Snd_pcm_recover (Some p) (int_of_long played) 0) final]
       else []) /\
    (m = 0 /\ buf = None \/ m <> 0 /\ exists b, buf = Some b /\ mem w !! b = None) /\
    mem w' = mem w /\
    forallb render_event evs = true.
Proof.
  intros Hh Hp Hpm Hlen.
  destruct (wp_elim _ _ _ (render_order_spec E w h r p ntp data data_len pts Hh Hp Hpm Hlen))
    as ([] & w' & Hrun & evs & f & m & d & buf & played & final & Ht & Htake & Hdrop
        & _ & _ & _ & _ & Hall & Hbuf & Hmem).
  exists w', evs, f, m, d, buf, played, final.
  split; [exact Hrun|]. split; [exact Ht|].
  split; [|split; [exact Hbuf|split; [exact Hmem|exact Hall]]].
  rewrite <- (take_drop 4 (calls is_lib evs)), Htake, Hdrop. reflexivity.
Qed.

Lemma render_calls_in_order_witness :
  exists w' evs f m d buf played final,
    audio_renderer_alsa_render_buffer (env_of underrun_reply card) (Some 1%positive)
      None [1; 2; 3] 3 0 ready_world = Ok tt w' /\
    trace w' = trace ready_world ++ evs /\
    calls is_lib evs =
      [ Lib (AacDecoder_Fill (audio_decoder ready_renderer) [1; 2; 3] (UINT_of_int 3)
               (UINT_of_int 3)) f;
        Lib (Malloc (4 * 480)) m;
        Lib (AacDecoder_DecodeFrame (audio_decoder ready_renderer) buf (4 * 480) 0) d;
        Lib (Snd_pcm_writei (Some 3%positive) buf 480) played ] ++
      (if played <? 0
       then [Lib (Snd_pcm_recover (Some 3%positive) (int_of_long played) 0) final]
       else []) /\
    (m = 0 /\ buf = None \/
     m <> 0 /\ exists b, buf = Some b /\ mem ready_world !! b = None) /\
    mem w' = mem ready_world /\
    forallb render_event evs = true.
Proof.
  apply (render_calls_in_order (env_of underrun_reply card) ready_world 1%positive
           ready_renderer 3%positive None [1; 2; 3] 3 0).
  - vm_compute; reflexivity.
  - reflexivity.
  - vm_compute; reflexivity.
  - lia.
Defined.

(** X13: what a render call reports at its end.  Let [final] be the
    count the stream returned last (from the write, or from the recovery
    after a failed write).  If it is negative the last event is an error
    line with the text of the code; if it is positive and below 480 the
    last event is the error line with the format [short_write_format]
    (the literal of line 240, which ends in a line feed) and the arguments
    480 and [final]; if it is zero, or at least 480, nothing is logged
    after the last library call.  A short write is reported and not
    retried. *)
Theorem render_final_report E w h r p ntp data data_len pts :
  mem w !! h = Some (BRenderer r) ->
  audio_renderer r = Some p ->
  mem w !! p = Some (BPcm (Some playback_setup)) ->
  data_len <> 0 ->
  exists w' evs final,
    audio_renderer_alsa_render_buffer E (Some h) ntp data data_len pts w = Ok tt w' /\
    trace w' = trace w ++ evs /\
    reply_of <$> last (calls is_lib evs) = Some final /\
    (final < 0 ->
     last evs = Some (Log (base_logger r) LOGGER_ERR (AStrerror (int_of_long final)) [])) /\
    (0 < final < 480 ->
     last evs =
       Some (Log (base_logger r) LOGGER_ERR
               (AStr short_write_format)
               [AInt 480; AInt final])) /\
    (final = 0 \/ 480 <= final -> last evs = last (calls is_lib evs)).
Proof.
  intros Hh Hp Hpm Hlen.
  destruct (wp_elim _ _ _ (render_order_spec E w h r p ntp data data_len pts Hh Hp Hpm Hlen))
    as ([] & w' & Hrun & evs & f & m & d & buf & played & final & Ht & Htake & Hdrop
        & Hsame & Hneg & Hshort & Hquiet & _).
  exists w', evs, final.
  split; [exact Hrun|]. split; [exact Ht|].
  split; [|split; [exact Hneg|split; [exact Hshort|exact Hquiet]]].
  rewrite <- (take_drop 4 (calls is_lib evs)), Htake, Hdrop.
  destruct (Z.ltb_spec played 0) as [Hlt|Hge].
  - reflexivity.
  - rewrite (Hsame Hge). reflexivity.
Qed.

Lemma render_final_report_witness :
  exists w' evs final,
    audio_renderer_alsa_render_buffer (env_of partial_write_reply card)
      (Some 1%positive) None [1; 2; 3] 3 0 ready_world = Ok tt w' /\
    trace w' = trace ready_world ++ evs /\
    reply_of <$> last (calls is_lib evs) = Some final /\
    (final < 0 ->
     last evs =
       Some (Log (base_logger ready_renderer) LOGGER_ERR
               (AStrerror (int_of_long final)) [])) /\
    (0 < final < 480 ->
     last evs =
       Some (Log (base_logger ready_renderer) LOGGER_ERR
               (AStr short_write_format)
               [AInt 480; AInt final])) /\
    (final = 0 \/ 480 <= final -> last evs = last (calls is_lib evs)).
Proof.
  apply (render_final_report (env_of partial_write_reply card) ready_world 1%positive
           ready_renderer 3%positive None [1; 2; 3] 3 0).
  - vm_compute; reflexivity.
  - reflexivity.
  - vm_compute; reflexivity.
  - lia.
Defined.

(** X14: a negative length is not refused.  It is not zero, so the
    call goes on, and the conversion to [UINT] hands the decoder a buffer
    size and a valid-byte count of [2^32 + data_len]. *)
Theorem render_negative_length E w h r p ntp data data_len pts :
  mem w !! h = Some (BRenderer r) ->
  audio_renderer r = Some p ->
  mem w !! p = Some (BPcm (Some playback_setup)) ->
  - 2 ^ 31 <= data_len < 0 ->
  exists w' evs f,
    audio_renderer_alsa_render_buffer E (Some h) ntp data data_len pts w = Ok tt w' /\
    trace w' = trace w ++ evs /\
    calls is_fill evs =
      [Lib (AacDecoder_Fill (audio_decoder r) data (2 ^ 32 + data_len)
              (2 ^ 32 + data_len)) f].
Proof.
  intros Hh Hp Hpm Hlen.
  assert (Hne : data_len <> 0) by lia.
  destruct (wp_elim _ _ _ (render_buffer_spec E w h r p ntp data data_len pts Hh Hp Hpm Hne))
    as ([] & w' & Hrun & _ & _ & _ & evs & m & f & d & buf & played & Ht & _ & _
        & Hfill & _).
  exists w', evs, f.
  split; [exact Hrun|]. split; [exact Ht|].
  rewrite Hfill. unfold UINT_of_int.
  replace (data_len mod 2 ^ 32) with (2 ^ 32 + data_len); [reflexivity|].
  apply Z.mod_unique with (q := -1); lia.
Qed.

Lemma render_negative_length_witness :
  exists w' evs f,
    audio_renderer_alsa_render_buffer nominal_env (Some 1%positive) None [1; 2; 3]
      (-1) 0 ready_world = Ok tt w' /\
    trace w' = trace ready_world ++ evs /\
    calls is_fill evs =
      [Lib (AacDecoder_Fill (audio_decoder ready_renderer) [1; 2; 3] (2 ^ 32 + -1)
              (2 ^ 32 + -1)) f].
Proof.
  apply (render_negative_length nominal_env ready_world 1%positive ready_renderer
           3%positive None [1; 2; 3] (-1) 0).
  - vm_compute; reflexivity.
  - reflexivity.
  - vm_compute; reflexivity.
  - lia.
Defined.

(** X15: the requests of the function table compose.  On a renderer
    ready for playback, any sequence of start, render, set-volume and
    flush requests whose volumes can be scaled is served without a fault,
    whatever the libraries return; memory and the flag are the same
    afterwards, each request that carries data gave exactly one write of
    480 frames to the renderer's stream, and nothing was opened or
    closed.  Start and flush do nothing. *)
Theorem requests_are_served E w h r p qs :
  playable w h r p ->
  Forall (volume_defined (LONG_BITS E)) qs ->
  exists w', serve_all E (Some h) qs w = Ok tt w' /\ served w p qs w'.
Proof.
  intros Hplay Hdef.
  destruct (wp_elim _ _ _ (serve_all_spec E h r p qs w Hplay Hdef))
    as ([] & w' & Hrun & Hpost).
  exists w'. split; [exact Hrun | exact Hpost].
Qed.

Lemma requests_are_served_witness :
  exists w',
    serve_all (env_of underrun_reply card) (Some 1%positive) sample_requests
      ready_world = Ok tt w' /\
    served ready_world 3%positive sample_requests w'.
Proof.
  apply (requests_are_served (env_of underrun_reply card) ready_world 1%positive
           ready_renderer 3%positive sample_requests).
  - exact ready_world_playable.
  - exact sample_requests_defined.
Defined.

(** X16: the handle is not checked.  On a handle that is NULL or points
    to no live structure, a render call with a non-empty buffer faults,
    and so does [set_volume] when volume control is enabled. *)
Theorem unchecked_handle_faults E w renderer :
  dangling w renderer ->
  (forall ntp data data_len pts,
     data_len <> 0 ->
     audio_renderer_alsa_render_buffer E renderer ntp data data_len pts w = Fault) /\
  (mHasCtrlVolume w = true ->
   forall volume, audio_renderer_alsa_set_volume E renderer volume w = Fault).
Proof.
  intros Hd. split.
  - intros ntp data data_len pts Hlen. now apply render_dangling.
  - intros Hflag volume. now apply set_volume_dangling.
Qed.

Lemma unchecked_handle_faults_witness :
  (forall ntp data data_len pts,
     data_len <> 0 ->
     audio_renderer_alsa_render_buffer nominal_env (Some 1%positive) ntp data data_len
       pts destroyed_world = Fault) /\
  (mHasCtrlVolume destroyed_world = true ->
   forall volume,
     audio_renderer_alsa_set_volume nominal_env (Some 1%positive) volume
       destroyed_world = Fault).
Proof.
  apply (unchecked_handle_faults nominal_env destroyed_world (Some 1%positive)).
  vm_compute; reflexivity.
Defined.

(** X17: a volume that cannot be scaled is not caught.  With volume
    control enabled and a live structure, [set_volume] faults when the
    cast [(long)volume] or the product by 200 is undefined, as for an
    infinity. *)
Theorem set_volume_undefined_scale_faults E w h r volume :
  mem w !! h = Some (BRenderer r) ->
  mHasCtrlVolume w = true ->
  scaled_dB (LONG_BITS E) volume = None ->
  audio_renderer_alsa_set_volume E (Some h) volume w = Fault.
Proof.
  intros Hh Hflag Hdb. unfold audio_renderer_alsa_set_volume.
  apply fault_bind. wp_step. rewrite Hflag. cbn [negb].
  apply fault_bind. wp_step.
  apply fault_bind. wp_step.
  apply fault_here. unfold CHK_ALSA_ERRNO. apply fault_here.
  apply fault_bind. repeat wp_step.
  apply fault_bind. repeat wp_step.
  rewrite Hdb. reflexivity.
Qed.

Lemma set_volume_undefined_scale_faults_witness :
  audio_renderer_alsa_set_volume nominal_env (Some 1%positive) minus_infinity
    ready_world = Fault.
Proof.
  apply (set_volume_undefined_scale_faults nominal_env ready_world 1%positive
           ready_renderer minus_infinity).
  - vm_compute; reflexivity.
  - vm_compute; reflexivity.
  - vm_compute; reflexivity.
Defined.

(** X18: [(long)volume * 200] is defined exactly when [volume] is finite
    and 200 times its integral part fits [long]; the range check of the
    cast adds nothing to that of the product. *)
Theorem scaled_dB_defined_iff (bits : Z) (volume : float) (db : Z) :
  scaled_dB bits volume = Some db <->
  exists z, Ztrunc_float volume = Some z /\ db = z * 200 /\
            - 2 ^ (bits - 1) <= z * 200 < 2 ^ (bits - 1).
Proof.
  unfold scaled_dB, long_of_float, long_mul, in_long.
  pose proof (Z.pow_nonneg 2 (bits - 1) ltac:(lia)) as Hpow.
  set (B := 2 ^ (bits - 1)) in *.
  split.
  - destruct (Ztrunc_float volume) as [z|]; [|discriminate].
    destruct ((- B <=? z) && (z <? B)); [|discriminate].
    destruct ((- B <=? z * 200) && (z * 200 <? B)) eqn:Hin; [|discriminate].
    intros [= <-]. exists z. split; [reflexivity|]. split; [reflexivity|].
    apply andb_true_iff in Hin as [H1 H2]. apply Z.leb_le in H1. apply Z.ltb_lt in H2.
    lia.
  - intros (z & -> & -> & H1 & H2).
    assert (Hz : (- B <=? z) && (z <? B) = true).
    { apply andb_true_iff. split; [apply Z.leb_le | apply Z.ltb_lt]; lia. }
    assert (Hp : (- B <=? z * 200) && (z * 200 <? B) = true).
    { apply andb_true_iff. split; [apply Z.leb_le | apply Z.ltb_lt]; lia. }
    now rewrite Hz, Hp.
Qed.

(** X19: the configuration is read only after the decoder phase, and
    not checked.  With a NULL configuration create faults as soon as
    allocation and the decoder phase have succeeded. *)
Theorem create_null_config_faults E lg vr w :
  answers E decoder_phase_succeeds ->
  audio_renderer_alsa_init E lg vr None w = Fault.
Proof.
  intros Henv. unfold audio_renderer_alsa_init.
  repeat fault_prefix.
  change (negb (1 =? 1)) with false. cbv iota.
  apply fault_here. unfold audio_renderer_rpi_init_renderer.
  apply fault_bind. repeat wp_step_env.
  reflexivity.
Qed.

Lemma create_null_config_faults_witness :
  audio_renderer_alsa_init nominal_env sample_logger None None empty_world = Fault.
Proof.
  apply (create_null_config_faults nominal_env sample_logger None empty_world).
  answers_by_cases.
Defined.

(** * Checked calls of the teardown *)

Ltac checked_call_cases :=
  first
    [ left; eexists; split; [reflexivity | bool_lia]
    | right; do 2 eexists; split; [reflexivity|]; split;
      [bool_lia | repeat first [left; reflexivity | right]] ].

Section CheckedTeardown.

Variable E : Env.

Lemma destroy_checked_spec w h r d cf p s c dev :
  mem w !! h = Some (BRenderer r) ->
  audio_decoder r = Some d -> mem w !! d = Some (BDecoder cf) ->
  audio_renderer r = Some p -> mem w !! p = Some (BPcm s) ->
  ctl r = Some c -> mem w !! c = Some (BCtl dev) ->
  wp (audio_renderer_alsa_destroy E (Some h)) w
     (fun _ w' =>
        exists evs,
          trace w' = trace w ++ evs /\
          checked_call (base_logger r) "ALSA PCM drain" is_drain
            (Snd_pcm_drain (Some p)) evs /\
          checked_call (base_logger r) "ALSA PCM close" is_pcm_close
            (Snd_pcm_close (Some p)) evs /\
          checked_call (base_logger r) "ALSA CTL close" is_ctl_close
            (Snd_ctl_close (Some c)) evs).
Proof.
  intros Hh Hd Hdm Hp Hpm Hc Hcm.
  destruct r as [b cfg d' p' c' i]; simpl in Hd, Hp, Hc; subst d' p' c'.
  unfold audio_renderer_alsa_destroy.
  repeat wp_step.
  all: eexists; split; [trace_eq|]; cbn [app].
  all: split; [checked_call_cases|]; split; checked_call_cases.
Qed.

End CheckedTeardown.

(** X20: the macro that checks ALSA return codes pastes its argument
    twice, so on teardown each of drain, stream close and control close
    is issued once when it succeeds and a second time when it fails; the
    error line then carries the code of the second call.  A close that
    failed is attempted again on the same handle. *)
Theorem destroy_repeats_failed_calls E w h r d cf p s c dev :
  mem w !! h = Some (BRenderer r) ->
  audio_decoder r = Some d -> mem w !! d = Some (BDecoder cf) ->
  audio_renderer r = Some p -> mem w !! p = Some (BPcm s) ->
  ctl r = Some c -> mem w !! c = Some (BCtl dev) ->
  exists w' evs,
    audio_renderer_alsa_destroy E (Some h) w = Ok tt w' /\
    trace w' = trace w ++ evs /\
    checked_call (base_logger r) "ALSA PCM drain" is_drain (Snd_pcm_drain (Some p)) evs /\
    checked_call (base_logger r) "ALSA PCM close" is_pcm_close
      (Snd_pcm_close (Some p)) evs /\
    checked_call (base_logger r) "ALSA CTL close" is_ctl_close
      (Snd_ctl_close (Some c)) evs.
Proof.
  intros Hh Hd Hdm Hp Hpm Hc Hcm.
  destruct (wp_elim _ _ _
              (destroy_checked_spec E w h r d cf p s c dev Hh Hd Hdm Hp Hpm Hc Hcm))
    as ([] & w' & Hrun & evs & Hpost).
  exists w', evs. split; [exact Hrun | exact Hpost].
Qed.

Lemma destroy_repeats_failed_calls_witness :
  exists w' evs,
    audio_renderer_alsa_destroy (env_of close_fail_reply card) (Some 1%positive)
      ready_world = Ok tt w' /\
    trace w' = trace ready_world ++ evs /\
    checked_call (base_logger ready_renderer) "ALSA PCM drain" is_drain
      (Snd_pcm_drain (Some 3%positive)) evs /\
    checked_call (base_logger ready_renderer) "ALSA PCM close" is_pcm_close
      (Snd_pcm_close (Some 3%positive)) evs /\
    checked_call (base_logger ready_renderer) "ALSA CTL close" is_ctl_close
      (Snd_ctl_close (Some 4%positive)) evs.
Proof.
  apply (destroy_repeats_failed_calls (env_of close_fail_reply card) ready_world
           1%positive ready_renderer 2%positive true 3%positive (Some playback_setup)
           4%positive "default"); vm_compute; reflexivity.
Defined.
